(** * Query Responder (agentic RAG): the agent decision flow

    A shallow embedding of [backend/app.py]: the five tools of the agent
    ([retrieve_from_docs], [check_exact_match], [search_web],
    [check_relevance], [check_for_ambiguity]) and the orchestrator
    [agent_decision_flow] with its session store.

    Modelling choices.
    - Strings are Rocq strings holding the UTF-8 form of the text.  A
      comparison with an ASCII word, a prefix test against one and a
      substring test for one give the same answer on the UTF-8 form as on the
      characters.  [strip] removes every character Python's [str.strip]
      removes; [lower] is described where it is defined.  A lone surrogate,
      which has no UTF-8 form, is held as the three bytes the same scheme
      gives it (ED A0 80 to ED BF BF).
    - Distance scores are IEEE 754 binary64 numbers, as Python's [float]:
      the primitive floats of Rocq, compared with [PrimFloat.leb] and
      [PrimFloat.ltb].
    - The process-wide components [vectorstore], [llm] and [serper_search]
      are [None] until initialised, and are otherwise functions that return
      a value or raise an exception carrying a message.  They are taken to
      answer the same request the same way during one turn.
    - [session_store] is a finite map from session ids to sessions.  The only
      values the program ever writes under ['last_agent_action'] are
      ["awaiting_web_permission"] and ["awaiting_clarification"], hence the
      two-constructor type [agent_action].
    - The [print] calls of the tools and of the orchestrator are taken to
      succeed and are not modelled; those of the request handler are (see
      [print_raises]).  What is recorded of a turn is the sequence of calls
      the orchestrator itself makes, to its tools and to the chains it
      builds ([calls]), in the order they happen.  The chain that
      [check_for_ambiguity] or [check_relevance] invokes is part of that
      tool: it appears in the definition of the tool, not in [calls]. *)

From Stdlib Require Import Floats Ascii String List Bool Arith Lia.
From stdpp Require Import gmap strings list.

Set Warnings "-inexact-float".
Local Open Scope string_scope.

(** ** Python string operations *)

Module Py.

Definition newline : string := String (ascii_of_nat 10) EmptyString.

(** [str.lower] on one ASCII character. *)
Definition lower_char (c : ascii) : ascii :=
  let n := nat_of_ascii c in
  if (65 <=? n)%nat && (n <=? 90)%nat then ascii_of_nat (n + 32) else c.

(** U+0130 (C4 B0) and U+212A KELVIN SIGN (E2 84 AA), the two characters
    outside ASCII whose lowercase form has an ASCII letter in it. *)
Definition is_dotted_I (c1 c2 : ascii) : bool :=
  (nat_of_ascii c1 =? 196)%nat && (nat_of_ascii c2 =? 176)%nat.

Definition is_kelvin (c1 c2 c3 : ascii) : bool :=
  (nat_of_ascii c1 =? 226)%nat && (nat_of_ascii c2 =? 132)%nat
  && (nat_of_ascii c3 =? 170)%nat.

(** The lowercase form of U+0130: "i" and U+0307 (CC 87). *)
Definition dotted_i : string :=
  String (ascii_of_nat 105) (String (ascii_of_nat 204) (String (ascii_of_nat 135) EmptyString)).

(** [s.lower()].  Every character whose lowercase form contains an ASCII
    character is lowered as Python does: "A"-"Z", U+212A (to "k") and
    U+0130 (to "i" and U+0307).  The other characters are left as they are;
    Python replaces some of them by characters that are not ASCII either,
    so whether the result equals an ASCII word, or starts with one, is the
    same here as in Python. *)
Fixpoint lower (s : string) : string :=
  match s with
  | EmptyString => EmptyString
  | String c1 r1 =>
      match r1 with
      | String c2 r2 =>
          if is_dotted_I c1 c2 then dotted_i ++ lower r2
          else
            match r2 with
            | String c3 r3 =>
                if is_kelvin c1 c2 c3 then String (ascii_of_nat 107) (lower r3)
                else String (lower_char c1) (lower r1)
            | EmptyString => String (lower_char c1) (lower r1)
            end
      | EmptyString => String (lower_char c1) (lower r1)
      end
  end.

(** [c.isspace()] for an ASCII character: tab, line feed, vertical tab,
    form feed, carriage return, the four separators 0x1c-0x1f and the
    space. *)
Definition isspace (c : ascii) : bool :=
  let n := nat_of_ascii c in
  ((9 <=? n)%nat && (n <=? 13)%nat) || ((28 <=? n)%nat && (n <=? 32)%nat).

(** The whitespace characters with a two-byte form: U+0085 (C2 85) and
    U+00A0 (C2 A0). *)
Definition isspace2 (c1 c2 : ascii) : bool :=
  (nat_of_ascii c1 =? 194)%nat
  && ((nat_of_ascii c2 =? 133)%nat || (nat_of_ascii c2 =? 160)%nat).

(** The whitespace characters with a three-byte form: U+1680 (E1 9A 80),
    U+2000-U+200A (E2 80 80-8A), U+2028 and U+2029 (E2 80 A8-A9), U+202F
    (E2 80 AF), U+205F (E2 81 9F) and U+3000 (E3 80 80).  With the ASCII
    and the two-byte ones these are the 29 characters for which
    [str.isspace] holds. *)
Definition isspace3 (c1 c2 c3 : ascii) : bool :=
  let a := nat_of_ascii c1 in
  let b := nat_of_ascii c2 in
  let c := nat_of_ascii c3 in
  ((a =? 225)%nat && (b =? 154)%nat && (c =? 128)%nat)
  || ((a =? 226)%nat && (b =? 128)%nat
      && (((128 <=? c)%nat && (c <=? 138)%nat)
          || (c =? 168)%nat || (c =? 169)%nat || (c =? 175)%nat))
  || ((a =? 226)%nat && (b =? 129)%nat && (c =? 159)%nat)
  || ((a =? 227)%nat && (b =? 128)%nat && (c =? 128)%nat).

(** The text after one leading whitespace character, if there is one. *)
Definition skip_space (s : string) : option string :=
  match s with
  | EmptyString => None
  | String c1 r1 =>
      if isspace c1 then Some r1
      else
        match r1 with
        | EmptyString => None
        | String c2 r2 =>
            if isspace2 c1 c2 then Some r2
            else
              match r2 with
              | EmptyString => None
              | String c3 r3 => if isspace3 c1 c2 c3 then Some r3 else None
              end
        end
  end.

(** [s.lstrip()] *)
Fixpoint lstrip (s : string) : string :=
  match s with
  | EmptyString => EmptyString
  | String c1 r1 =>
      if isspace c1 then lstrip r1
      else
        match r1 with
        | EmptyString => s
        | String c2 r2 =>
            if isspace2 c1 c2 then lstrip r2
            else
              match r2 with
              | EmptyString => s
              | String c3 r3 => if isspace3 c1 c2 c3 then lstrip r3 else s
              end
        end
  end.

(** Only whitespace (or nothing) is left. *)
Definition blank (s : string) : bool :=
  match lstrip s with
  | EmptyString => true
  | String _ _ => false
  end.

(** [s.rstrip()]: the text up to the point from which only whitespace is
    left. *)
Fixpoint rstrip (s : string) : string :=
  match s with
  | EmptyString => EmptyString
  | String c r => if blank s then EmptyString else String c (rstrip r)
  end.

(** [s.strip()] *)
Definition strip (s : string) : string := rstrip (lstrip s).

(** U+00A0 NO-BREAK SPACE and U+212A KELVIN SIGN, in UTF-8. *)
Definition nbsp : string :=
  String (ascii_of_nat 194) (String (ascii_of_nat 160) EmptyString).

Definition kelvin : string :=
  String (ascii_of_nat 226) (String (ascii_of_nat 132)
    (String (ascii_of_nat 170) EmptyString)).

(** [s.startswith(p)] *)
Definition startswith (s p : string) : bool := String.prefix p s.

(** [sub in s] *)
Fixpoint contains (sub s : string) : bool :=
  String.prefix sub s
  || match s with
     | EmptyString => false
     | String _ r => contains sub r
     end.

(** [sep.join(l)] *)
Definition join (sep : string) (l : list string) : string := String.concat sep l.

(** [x in l] for a list of strings. *)
Definition mem (x : string) (l : list string) : bool :=
  existsb (String.eqb x) l.

(** [s[:n]]: the first [n] characters.  A character starts at each byte
    that is not a UTF-8 continuation byte (80-BF). *)
Fixpoint slice_to (n : nat) (s : string) : string :=
  match s with
  | EmptyString => EmptyString
  | String c r =>
      if (128 <=? nat_of_ascii c)%nat && (nat_of_ascii c <? 192)%nat
      then String c (slice_to n r)
      else match n with
           | O => EmptyString
           | S m => String c (slice_to m r)
           end
  end.

(** Truthiness of a string: non-empty. *)
Definition truthy (s : string) : bool :=
  match s with EmptyString => false | _ => true end.

(** [list(set(l))]: the distinct elements of [l].  Python fixes no order
    for them, and the order can change from one run to the next; the
    properties below speak of membership and repetition only, never of the
    order chosen here. *)
Definition list_set (l : list string) : list string := nodup string_dec l.

End Py.

(** ** Data *)

(** A retrieved chunk: [doc.page_content] and [doc.metadata.get('source')]. *)
Record Document := {
  page_content : string;
  metadata_source : option string
}.

(** [doc.metadata.get('source', 'N/A')] *)
Definition source_of (doc : Document) : string :=
  match metadata_source doc with
  | Some s => s
  | None => "N/A"
  end.

(** The result of a call that may raise: a value, or an exception with its
    message ([str(e)]). *)
Inductive outcome (A : Type) : Type :=
| Ok (a : A)
| Raise (e : string).
Arguments Ok {A} a.
Arguments Raise {A} e.

(** The prompt templates [app.py] imports from [prompt_library.py]. *)
Inductive prompt :=
| RAG_PROMPT_TEMPLATE
| AGENT_TOOL_ROUTER_PROMPT
| WEB_SYNTHESIS_PROMPT_TEMPLATE
| RELEVANCE_GRADER_PROMPT
| CLARIFICATION_PROMPT
| FINETUNE_RESPONSE_PROMPT_TEMPLATE
| REPHRASE_PROMPT.

(** The dictionary handed to [chain.invoke]. *)
Definition prompt_inputs := list (string * string).

(** The global components of [app.py]. *)
Record components := {
  (** [vectorstore.similarity_search_with_score(query, k=k)] *)
  vectorstore : option (string -> nat -> outcome (list (Document * float)));
  (** [(prompt | llm | StrOutputParser()).invoke(inputs)] *)
  llm : option (prompt -> prompt_inputs -> outcome string);
  (** [serper_search.run(query)] *)
  serper_search : option (string -> outcome string)
}.

Inductive agent_action :=
| awaiting_web_permission
| awaiting_clarification.

Record session := {
  last_agent_action : agent_action;
  last_query : string
}.

(** The triple [agent_decision_flow] returns. *)
Record response := Response {
  answer_text : string;
  source_label : string;
  sources : list string
}.

(** What the orchestrator itself calls during a turn: a tool, or
    ([call_invoke]) a chain built in [agent_decision_flow].  What a tool
    calls in turn is not listed. *)
Inductive call :=
| call_search_web (query : string)
| call_check_for_ambiguity (query : string)
| call_check_exact_match (query : string)
| call_retrieve_from_docs (query : string)
| call_check_relevance (question context : string)
| call_invoke (p : prompt) (inputs : prompt_inputs).

(** The mutable state around a turn. *)
Record world := World {
  session_store : gmap string session;
  calls : list call
}.

(** ** The tools *)

Section Tools.

Variable env : components.

(** The distance threshold written [0.7] in both tools. *)
Definition SCORE_THRESHOLD : float := 0.7%float.

Definition CONTEXT_SEPARATOR : string :=
  Py.newline ++ Py.newline ++ "---" ++ Py.newline ++ Py.newline.

(** The loop of lines 104-107: keep the chunks with [score <= 0.7]. *)
Definition filtered_chunks (initial_chunks : list (Document * float))
  : list (Document * float) :=
  List.filter (fun ds => PrimFloat.leb (snd ds) SCORE_THRESHOLD) initial_chunks.

(** Lines 127-131: the context string and the sources of the kept chunks. *)
Definition context_text (final_document_list : list Document) : string :=
  Py.join CONTEXT_SEPARATOR (map page_content final_document_list).

(** [retrieve_from_docs], lines 91-137. *)
Definition retrieve_from_docs (query : string) : string * list string :=
  match vectorstore env with
  | None => ("Error: Document database not initialized.", [])
  | Some similarity_search_with_score =>
      match similarity_search_with_score query 8%nat with
      | Ok initial_chunks =>
          match filtered_chunks initial_chunks with
          | [] => ("No relevant documents found that meet the quality threshold.", [])
          | kept =>
              let final_document_list := map fst kept in
              (context_text final_document_list,
               Py.list_set (map source_of final_document_list))
          end
      | Raise e => ("Error during local document retrieval: " ++ e, [])
      end
  end.

(** The loop of lines 169-175: the first chunk with [score < 0.7] triggers. *)
Fixpoint first_trigger (docs_with_score : list (Document * float))
  : option (string * list string) :=
  match docs_with_score with
  | [] => None
  | (doc, score) :: rest =>
      if PrimFloat.ltb score SCORE_THRESHOLD
      then Some ("trigger_success", [])
      else first_trigger rest
  end.

(** [check_exact_match], lines 139-182.  The store is queried twice with
    [k=3]: once for the chunks that are printed, once for the scan. *)
Definition check_exact_match (query : string) : option (string * list string) :=
  match vectorstore env with
  | None => None
  | Some similarity_search_with_score =>
      match similarity_search_with_score query 3%nat with
      | Ok _ =>
          match similarity_search_with_score query 3%nat with
          | Ok docs_with_score => first_trigger docs_with_score
          | Raise _ => None
          end
      | Raise _ => None
      end
  end.

(** [search_web], lines 184-196. *)
Definition search_web (query : string) : string :=
  match serper_search env with
  | None => "Error: Web search tool not initialized."
  | Some run =>
      match run query with
      | Ok search_results => search_results
      | Raise e => "Error performing web search: " ++ e
      end
  end.

(** [check_relevance], lines 198-213. *)
Definition check_relevance (question context : string) : bool :=
  match llm env with
  | None => false
  | Some invoke =>
      match invoke RELEVANCE_GRADER_PROMPT
              [("question", question); ("context", context)] with
      | Ok grade => Py.startswith (Py.lower (Py.strip grade)) "yes"
      | Raise _ => false
      end
  end.

(** [check_for_ambiguity], lines 215-233. *)
Definition check_for_ambiguity (query : string) : option string :=
  match llm env with
  | None => None
  | Some invoke =>
      match invoke CLARIFICATION_PROMPT [("question", query)] with
      | Ok response =>
          if Py.truthy response
             && String.eqb (Py.lower (Py.strip response)) "clear"
          then Some "clear"
          else if Py.truthy response then Some response
          else None
      | Raise _ => None
      end
  end.

End Tools.

(** ** Turns: state, exceptions and the record of calls *)

(** A computation inside a turn: it reads and updates the [world] and either
    yields a value or raises. *)
Definition M (A : Type) : Type := world -> outcome A * world.

Definition ret {A} (a : A) : M A := fun w => (Ok a, w).

Definition bind {A B} (m : M A) (k : A -> M B) : M B :=
  fun w =>
    match m w with
    | (Ok a, w') => k a w'
    | (Raise e, w') => (Raise e, w')
    end.

Definition raise {A} (e : string) : M A := fun w => (Raise e, w).

(** [try: m  except Exception as e: h e] *)
Definition try_except {A} (m : M A) (h : string -> M A) : M A :=
  fun w =>
    match m w with
    | (Ok a, w') => (Ok a, w')
    | (Raise e, w') => h e w'
    end.

Notation "x <- m ;; k" := (bind m (fun x => k))
  (at level 100, m at next level, right associativity).
Notation "m ;;; k" := (bind m (fun _ => k))
  (at level 100, right associativity).

Definition record_call (c : call) (w : world) : world :=
  World (session_store w) (calls w ++ [c]).

(** A call of the orchestrator to one of the tools, which never raise:
    the call is recorded and its value returned.  The value is computed by
    the tool's own definition, model calls included. *)
Definition tool {A} (c : call) (v : A) : M A :=
  fun w => (Ok v, record_call c w).

(** [session_store.get(session_id, {})] *)
Definition session_get (session_id : string) : M (option session) :=
  fun w => (Ok (session_store w !! session_id), w).

(** [session_store.pop(session_id, None)] *)
Definition session_pop (session_id : string) : M unit :=
  fun w => (Ok tt, World (delete session_id (session_store w)) (calls w)).

(** [session_store[session_id] = {...}] *)
Definition session_set (session_id : string) (s : session) : M unit :=
  fun w => (Ok tt, World (<[session_id := s]> (session_store w)) (calls w)).

(** ** The orchestrator *)

Section Orchestrator.

Variable env : components.

(** The [TypeError] of [prompt | None]: with no model the chain cannot be
    built, and nothing is invoked.  The wording is LangChain's; no property
    below depends on it. *)
Definition NOT_RUNNABLE : string :=
  "Expected a Runnable, callable or dict.Instead got an unsupported type: <class 'NoneType'>".

(** [(p | llm | StrOutputParser()).invoke(inputs)] inside the flow. *)
Definition chain_invoke (p : prompt) (inputs : prompt_inputs) : M string :=
  match llm env with
  | None => raise NOT_RUNNABLE
  | Some invoke =>
      fun w => (invoke p inputs, record_call (call_invoke p inputs) w)
  end.

Definition AFFIRMATIVE : list string := ["yes"; "y"; "sure"; "ok"].

Definition DECLINE_MESSAGE : string :=
  "Understood. I will not perform a web search at this time.".

Definition PERMISSION_QUESTION : string :=
  "I couldn't find a good answer in the available documents. Would you like me to search the web for you? (yes/no)".

Definition NO_CONTEXT_MESSAGE : string :=
  "I found a potential match but was unable to retrieve the full context.".

(** [final_input = {"context": ..., "question": ...}], lines 434 and 453. *)
Definition rag_inputs (context question : string) : prompt_inputs :=
  [("context", context); ("question", question)].

(** The test of lines 428 and 447:
    ["Error" in text or "No relevant documents" in text]. *)
Definition retrieval_failed (text : string) : bool :=
  Py.contains "Error" text || Py.contains "No relevant documents" text.

(** The test of line 409, [ambiguity_check and ambiguity_check != "clear"]:
    the clarification question to return, when it holds. *)
Definition clarification_asked (ambiguity_check : option string) : option string :=
  match ambiguity_check with
  | Some q => if Py.truthy q && negb (String.eqb q "clear") then Some q else None
  | None => None
  end.

(** Lines 417-467 of [agent_decision_flow]: the high-confidence trigger,
    then the standard retrieval path with its web-permission fallback. *)
Definition hybrid_logic (input_query session_id : string) : M response :=
  exact_match_response <-
    tool (call_check_exact_match input_query) (check_exact_match env input_query) ;;
  match exact_match_response with
  | Some _ =>
      r <- tool (call_retrieve_from_docs input_query)
             (retrieve_from_docs env input_query) ;;
      let '(context_text, sources) := r in
      if retrieval_failed context_text
      then ret (Response NO_CONTEXT_MESSAGE "System Error" [])
      else
        final_answer <-
          chain_invoke RAG_PROMPT_TEMPLATE (rag_inputs context_text input_query) ;;
        ret (Response final_answer "Agent (High-Confidence RAG)" sources)
  | None =>
      r <- tool (call_retrieve_from_docs input_query)
             (retrieve_from_docs env input_query) ;;
      let '(tool_output, sources) := r in
      local_search_successful <-
        (if negb (Py.contains "Error" tool_output)
            && negb (Py.contains "No relevant documents" tool_output)
         then tool (call_check_relevance input_query tool_output)
                (check_relevance env input_query tool_output)
         else ret false) ;;
      if (local_search_successful : bool)
      then
        final_answer <-
          chain_invoke RAG_PROMPT_TEMPLATE (rag_inputs tool_output input_query) ;;
        ret (Response final_answer "Agent + Internal Docs" sources)
      else
        session_set session_id
          {| last_agent_action := awaiting_web_permission;
             last_query := input_query |} ;;;
        ret (Response PERMISSION_QUESTION "Agent (Multi-turn)" [])
  end.

(** The [try] block of [agent_decision_flow], lines 373-467. *)
Definition agent_decision_flow_body (input_query session_id : string) : M response :=
  session_state <- session_get session_id ;;
  match session_state with
  | Some {| last_agent_action := awaiting_web_permission;
            last_query := last_query |} =>
      if Py.mem (Py.lower input_query) AFFIRMATIVE
      then
        tool_output <- tool (call_search_web last_query) (search_web env last_query) ;;
        session_pop session_id ;;;
        final_answer <-
          chain_invoke WEB_SYNTHESIS_PROMPT_TEMPLATE
            [("question", last_query); ("search_results", tool_output)] ;;
        ret (Response final_answer "Agent + Web Search" [])
      else
        session_pop session_id ;;;
        ret (Response DECLINE_MESSAGE "Agent Response" [])
  | Some {| last_agent_action := awaiting_clarification;
            last_query := last_query |} =>
      new_query <-
        chain_invoke REPHRASE_PROMPT
          [("original_question", last_query);
           ("clarification_detail", input_query)] ;;
      session_pop session_id ;;;
      hybrid_logic new_query session_id
  | None =>
      ambiguity_check <-
        tool (call_check_for_ambiguity input_query)
          (check_for_ambiguity env input_query) ;;
      match clarification_asked ambiguity_check with
      | Some question =>
          session_set session_id
            {| last_agent_action := awaiting_clarification;
               last_query := input_query |} ;;;
          ret (Response question "Agent (Clarification)" [])
      | None => hybrid_logic input_query session_id
      end
  end.

(** The [except Exception as e] handler, lines 469-472. *)
Definition internal_error (e : string) : response :=
  Response ("An internal agent error occurred: " ++ e) "System Error" [].

(** [agent_decision_flow], lines 367-472. *)
Definition agent_decision_flow (input_query session_id : string) : M response :=
  try_except (agent_decision_flow_body input_query session_id)
    (fun e => ret (internal_error e)).

End Orchestrator.

(** ** How a turn reaches the retrieval part of the flow

    [reaches_main_flow env input sid w q w1]: the turn started in [w] on
    [input] gets to line 419 with [q] as its query and [w1] as its state.
    This happens for a session with nothing pending whose query the
    ambiguity detector lets through, and for a session awaiting clarification
    whose rephrasing call returns. *)
Inductive reaches_main_flow (env : components) (input_query session_id : string) (w : world)
  : string -> world -> Prop :=
| reaches_fresh :
    session_store w !! session_id = None ->
    clarification_asked (check_for_ambiguity env input_query) = None ->
    reaches_main_flow env input_query session_id w input_query
      (record_call (call_check_for_ambiguity input_query) w)
| reaches_rephrased invoke pending new_query :
    session_store w !! session_id
      = Some {| last_agent_action := awaiting_clarification; last_query := pending |} ->
    llm env = Some invoke ->
    invoke REPHRASE_PROMPT
      [("original_question", pending); ("clarification_detail", input_query)]
      = Ok new_query ->
    reaches_main_flow env input_query session_id w new_query
      (World (delete session_id (session_store w))
         (calls w ++ [call_invoke REPHRASE_PROMPT
                        [("original_question", pending);
                         ("clarification_detail", input_query)]])).

(** The store after lines 461-464 have filed a web-permission request. *)
Definition permission_store (session_id query : string) (store : gmap string session)
  : gmap string session :=
  <[session_id := {| last_agent_action := awaiting_web_permission;
                     last_query := query |}]> store.

(** ** Sample components and states, used to run the flow *)

Module Sample.

Definition SESSION : string := "10.0.0.7".

Definition refund_doc : Document :=
  {| page_content := "Refunds are issued within 30 days of purchase.";
     metadata_source := Some "policy.pdf" |}.

Definition error_doc : Document :=
  {| page_content := "Error codes are listed in appendix B.";
     metadata_source := Some "manual.pdf" |}.

Definition AMBIGUOUS : string := "What are your sustainability initiatives?".
Definition CLARIFIED : string := "What are Acme Corp's sustainability initiatives?".
Definition WHICH_COMPANY : string := "Which company are you referring to in this question?".

(** A model that asks for the company when the question names none,
    rephrases, grades as told and answers. *)
Definition model (grade : string) (p : prompt) (inputs : prompt_inputs) : outcome string :=
  match p with
  | CLARIFICATION_PROMPT =>
      if Py.contains "your" (default "" (snd <$> head inputs))
      then Ok WHICH_COMPANY else Ok "clear"
  | REPHRASE_PROMPT => Ok CLARIFIED
  | RELEVANCE_GRADER_PROMPT => Ok grade
  | _ => Ok "An answer."
  end.

(** The same model with a rephrasing call and a web synthesis that fail. *)
Definition flaky_model (p : prompt) (inputs : prompt_inputs) : outcome string :=
  match p with
  | REPHRASE_PROMPT | WEB_SYNTHESIS_PROMPT_TEMPLATE => Raise "Connection refused"
  | _ => model "yes" p inputs
  end.

(** A store that answers every search with the one chunk given. *)
Definition store_of (doc : Document) (score : float)
  : string -> nat -> outcome (list (Document * float)) :=
  fun _ _ => Ok [(doc, score)].

Definition env_of (doc : Document) (score : float) (grade : string) : components :=
  {| vectorstore := Some (store_of doc score);
     llm := Some (model grade);
     serper_search := Some (fun q => Ok ("results for " ++ q)) |}.

Definition flaky_env : components :=
  {| vectorstore := Some (store_of refund_doc 0.42%float);
     llm := Some flaky_model;
     serper_search := None |}.

Definition empty_world : world := World ∅ [].

Definition pending (a : agent_action) (q : string) : world :=
  World {[ SESSION := {| last_agent_action := a; last_query := q |} ]} [].

End Sample.

(** ** What a turn can do

    The outcomes of the retrieval part of the flow and of a whole turn, as
    relations between the session store before, the result, the session
    store after and the calls made.  They are proved below to describe
    [hybrid_logic] and [agent_decision_flow], and are used to read off
    properties of every turn. *)
Inductive hybrid_result (env : components) (q session_id : string)
    (store : gmap string session)
  : outcome response -> gmap string session -> list call -> Prop :=
| hybrid_degraded t :
    check_exact_match env q = Some t ->
    retrieval_failed (fst (retrieve_from_docs env q)) = true ->
    hybrid_result env q session_id store
      (Ok (Response NO_CONTEXT_MESSAGE "System Error" [])) store
      [call_check_exact_match q; call_retrieve_from_docs q]
| hybrid_high_confidence t invoke final_answer :
    check_exact_match env q = Some t ->
    retrieval_failed (fst (retrieve_from_docs env q)) = false ->
    llm env = Some invoke ->
    invoke RAG_PROMPT_TEMPLATE (rag_inputs (fst (retrieve_from_docs env q)) q)
      = Ok final_answer ->
    hybrid_result env q session_id store
      (Ok (Response final_answer "Agent (High-Confidence RAG)"
             (snd (retrieve_from_docs env q)))) store
      [call_check_exact_match q; call_retrieve_from_docs q;
       call_invoke RAG_PROMPT_TEMPLATE (rag_inputs (fst (retrieve_from_docs env q)) q)]
| hybrid_high_confidence_raised t invoke e :
    check_exact_match env q = Some t ->
    retrieval_failed (fst (retrieve_from_docs env q)) = false ->
    llm env = Some invoke ->
    invoke RAG_PROMPT_TEMPLATE (rag_inputs (fst (retrieve_from_docs env q)) q)
      = Raise e ->
    hybrid_result env q session_id store (Raise e) store
      [call_check_exact_match q; call_retrieve_from_docs q;
       call_invoke RAG_PROMPT_TEMPLATE (rag_inputs (fst (retrieve_from_docs env q)) q)]
| hybrid_high_confidence_no_model t :
    check_exact_match env q = Some t ->
    retrieval_failed (fst (retrieve_from_docs env q)) = false ->
    llm env = None ->
    hybrid_result env q session_id store (Raise NOT_RUNNABLE) store
      [call_check_exact_match q; call_retrieve_from_docs q]
| hybrid_permission_ungraded :
    check_exact_match env q = None ->
    retrieval_failed (fst (retrieve_from_docs env q)) = true ->
    hybrid_result env q session_id store
      (Ok (Response PERMISSION_QUESTION "Agent (Multi-turn)" []))
      (permission_store session_id q store)
      [call_check_exact_match q; call_retrieve_from_docs q]
| hybrid_permission_graded :
    check_exact_match env q = None ->
    retrieval_failed (fst (retrieve_from_docs env q)) = false ->
    check_relevance env q (fst (retrieve_from_docs env q)) = false ->
    hybrid_result env q session_id store
      (Ok (Response PERMISSION_QUESTION "Agent (Multi-turn)" []))
      (permission_store session_id q store)
      [call_check_exact_match q; call_retrieve_from_docs q;
       call_check_relevance q (fst (retrieve_from_docs env q))]
| hybrid_internal_docs invoke final_answer :
    check_exact_match env q = None ->
    retrieval_failed (fst (retrieve_from_docs env q)) = false ->
    check_relevance env q (fst (retrieve_from_docs env q)) = true ->
    llm env = Some invoke ->
    invoke RAG_PROMPT_TEMPLATE (rag_inputs (fst (retrieve_from_docs env q)) q)
      = Ok final_answer ->
    hybrid_result env q session_id store
      (Ok (Response final_answer "Agent + Internal Docs"
             (snd (retrieve_from_docs env q)))) store
      [call_check_exact_match q; call_retrieve_from_docs q;
       call_check_relevance q (fst (retrieve_from_docs env q));
       call_invoke RAG_PROMPT_TEMPLATE (rag_inputs (fst (retrieve_from_docs env q)) q)]
| hybrid_internal_docs_raised invoke e :
    check_exact_match env q = None ->
    retrieval_failed (fst (retrieve_from_docs env q)) = false ->
    check_relevance env q (fst (retrieve_from_docs env q)) = true ->
    llm env = Some invoke ->
    invoke RAG_PROMPT_TEMPLATE (rag_inputs (fst (retrieve_from_docs env q)) q)
      = Raise e ->
    hybrid_result env q session_id store (Raise e) store
      [call_check_exact_match q; call_retrieve_from_docs q;
       call_check_relevance q (fst (retrieve_from_docs env q));
       call_invoke RAG_PROMPT_TEMPLATE (rag_inputs (fst (retrieve_from_docs env q)) q)].

(** What the caller of [agent_decision_flow] gets from the [try] block. *)
Definition settled (o : outcome response) : response :=
  match o with
  | Ok r => r
  | Raise e => internal_error e
  end.

Definition web_inputs (env : components) (pending : string) : prompt_inputs :=
  [("question", pending); ("search_results", search_web env pending)].

Definition rephrase_inputs (pending input_query : string) : prompt_inputs :=
  [("original_question", pending); ("clarification_detail", input_query)].

Inductive turn_result (env : components) (input_query session_id : string)
    (store : gmap string session)
  : response -> gmap string session -> list call -> Prop :=
| turn_web_search pending invoke final_answer :
    store !! session_id
      = Some {| last_agent_action := awaiting_web_permission; last_query := pending |} ->
    In (Py.lower input_query) AFFIRMATIVE ->
    llm env = Some invoke ->
    invoke WEB_SYNTHESIS_PROMPT_TEMPLATE (web_inputs env pending) = Ok final_answer ->
    turn_result env input_query session_id store
      (Response final_answer "Agent + Web Search" [])
      (delete session_id store)
      [call_search_web pending;
       call_invoke WEB_SYNTHESIS_PROMPT_TEMPLATE (web_inputs env pending)]
| turn_web_search_raised pending invoke e :
    store !! session_id
      = Some {| last_agent_action := awaiting_web_permission; last_query := pending |} ->
    In (Py.lower input_query) AFFIRMATIVE ->
    llm env = Some invoke ->
    invoke WEB_SYNTHESIS_PROMPT_TEMPLATE (web_inputs env pending) = Raise e ->
    turn_result env input_query session_id store
      (internal_error e) (delete session_id store)
      [call_search_web pending;
       call_invoke WEB_SYNTHESIS_PROMPT_TEMPLATE (web_inputs env pending)]
| turn_web_search_no_model pending :
    store !! session_id
      = Some {| last_agent_action := awaiting_web_permission; last_query := pending |} ->
    In (Py.lower input_query) AFFIRMATIVE ->
    llm env = None ->
    turn_result env input_query session_id store
      (internal_error NOT_RUNNABLE) (delete session_id store)
      [call_search_web pending]
| turn_declined pending :
    store !! session_id
      = Some {| last_agent_action := awaiting_web_permission; last_query := pending |} ->
    ~ In (Py.lower input_query) AFFIRMATIVE ->
    turn_result env input_query session_id store
      (Response DECLINE_MESSAGE "Agent Response" []) (delete session_id store) []
| turn_rephrase_raised pending invoke e :
    store !! session_id
      = Some {| last_agent_action := awaiting_clarification; last_query := pending |} ->
    llm env = Some invoke ->
    invoke REPHRASE_PROMPT (rephrase_inputs pending input_query) = Raise e ->
    turn_result env input_query session_id store
      (internal_error e) store
      [call_invoke REPHRASE_PROMPT (rephrase_inputs pending input_query)]
| turn_rephrase_no_model pending :
    store !! session_id
      = Some {| last_agent_action := awaiting_clarification; last_query := pending |} ->
    llm env = None ->
    turn_result env input_query session_id store
      (internal_error NOT_RUNNABLE) store []
| turn_rephrased pending invoke new_query o store' cs :
    store !! session_id
      = Some {| last_agent_action := awaiting_clarification; last_query := pending |} ->
    llm env = Some invoke ->
    invoke REPHRASE_PROMPT (rephrase_inputs pending input_query) = Ok new_query ->
    hybrid_result env new_query session_id (delete session_id store) o store' cs ->
    turn_result env input_query session_id store (settled o) store'
      (call_invoke REPHRASE_PROMPT (rephrase_inputs pending input_query) :: cs)
| turn_clarification question :
    store !! session_id = None ->
    clarification_asked (check_for_ambiguity env input_query) = Some question ->
    turn_result env input_query session_id store
      (Response question "Agent (Clarification)" [])
      (<[session_id := {| last_agent_action := awaiting_clarification;
                          last_query := input_query |}]> store)
      [call_check_for_ambiguity input_query]
| turn_fresh o store' cs :
    store !! session_id = None ->
    clarification_asked (check_for_ambiguity env input_query) = None ->
    hybrid_result env input_query session_id store o store' cs ->
    turn_result env input_query session_id store (settled o) store'
      (call_check_for_ambiguity input_query :: cs).

(** ** More sample components *)

Module Fixture.

(** A model whose every call raises. *)
Definition down_model : prompt -> prompt_inputs -> outcome string :=
  fun _ _ => Raise "Read timed out".

(** Documents are found, the model is down, web search is not configured. *)
Definition degraded_env : components :=
  {| vectorstore := Some (Sample.store_of Sample.refund_doc 0.42%float);
     llm := Some down_model;
     serper_search := None |}.

(** A working model, and a web search that raises. *)
Definition offline_env : components :=
  {| vectorstore := Some (Sample.store_of Sample.refund_doc 0.85%float);
     llm := Some (Sample.model "no");
     serper_search := Some (fun _ => Raise "Name or service not known") |}.

Definition hr_doc : Document :=
  {| page_content := "Leave requests are approved by the line manager.";
     metadata_source := Some "handbook.pdf" |}.

Definition travel_doc : Document :=
  {| page_content := "Travel is booked through the agency.";
     metadata_source := None |}.

(** A store with three chunks at distances 0.2, 0.6 and 0.9: the nearest
    [k] are returned, nearest first. *)
Definition library : list (Document * float) :=
  [(Sample.refund_doc, 0.2%float); (hr_doc, 0.6%float); (travel_doc, 0.9%float)].

Definition library_env : components :=
  {| vectorstore := Some (fun _ k => Ok (firstn k library));
     llm := Some (Sample.model "yes");
     serper_search := None |}.

End Fixture.

(** ** The server around the flow

    [config.py] is imported by [app.py] but is not part of the sources: the
    values read from it are the fields of [config], where the empty string
    stands for a value that is not set ([None] or [""], both falsy).

    What start-up does outside the program (building the clients, loading
    the embedding model, opening the vector store) is given by [platform]:
    each such step returns its object or raises.  Building a client may
    depend on the process environment ([os.environ]). *)

Record config := {
  ACTIVE_LLM_PROVIDER : string;
  OPENAI_API_KEY : string;
  GEMINI_API_KEY : string;
  CLAUDE_API_KEY : string;
  SERPER_API_KEY : string
}.

(** A chat model: as the last step of a chain, and called directly with
    ["Hello."] by the start-up test. *)
Record llm_client := {
  client_chain : prompt -> prompt_inputs -> outcome string;
  client_hello : outcome string
}.

Inductive embeddings := HuggingFaceEmbeddings.

Record platform := {
  (** [ChatOllama(...)], [ChatOpenAI(...)], [ChatGoogleGenerativeAI(...)],
      [ChatAnthropic(...)], by provider name *)
  make_llm : string -> gmap string string -> outcome llm_client;
  (** [HuggingFaceEmbeddings(...)] *)
  make_embeddings : outcome embeddings;
  (** [os.path.exists(config.CHROMA_PERSIST_DIR)] *)
  persist_dir_exists : bool;
  (** [Chroma(...)] *)
  make_chroma : outcome (string -> nat -> outcome (list (Document * float)));
  (** [vectorstore._collection.count()] *)
  collection_count : outcome nat;
  (** [GoogleSerperAPIWrapper()] *)
  make_serper : gmap string string -> outcome (string -> outcome string);
  (** [os.environ[key] = value]: [None] when the assignment is made, the
      message of the exception when it raises (a value with a NUL byte, or
      one the file-system encoding cannot take) *)
  setenv_raises : string -> string -> option string
}.

(** The globals of [app.py], lines 37-44, with [os.environ] and the
    standard output.  [rag_agent_flow] is [None] or [agent_decision_flow].
    [print_raises text] is what [print(..., flush=True)] does in a request
    handler with a line that reads [text] after its timestamp: [None] when
    the line is written, the message of the exception when the call raises
    (as it does, with a [UnicodeEncodeError], for a text the output's
    encoding cannot take). *)
Record server := Server {
  parts : components;
  embedding_model : option embeddings;
  rag_components_initialized : bool;
  rag_agent_flow : bool;
  environ : gmap string string;
  print_raises : string -> option string;
  state : world
}.

(** The globals as the module is loaded, lines 37-44. *)
Definition initial_server (stdout : string -> option string)
    (environ : gmap string string) : server :=
  Server {| vectorstore := None; llm := None; serper_search := None |}
    None false false environ stdout (World ∅ []).

Definition set_environ (e : gmap string string) (s : server) : server :=
  Server (parts s) (embedding_model s) (rag_components_initialized s)
    (rag_agent_flow s) e (print_raises s) (state s).

Definition set_llm (f : prompt -> prompt_inputs -> outcome string) (s : server) : server :=
  Server {| vectorstore := vectorstore (parts s); llm := Some f;
            serper_search := serper_search (parts s) |}
    (embedding_model s) (rag_components_initialized s)
    (rag_agent_flow s) (environ s) (print_raises s) (state s).

Definition set_embedding_model (m : embeddings) (s : server) : server :=
  Server (parts s) (Some m) (rag_components_initialized s)
    (rag_agent_flow s) (environ s) (print_raises s) (state s).

Definition set_vectorstore
    (v : string -> nat -> outcome (list (Document * float))) (s : server) : server :=
  Server {| vectorstore := Some v; llm := llm (parts s);
            serper_search := serper_search (parts s) |}
    (embedding_model s) (rag_components_initialized s)
    (rag_agent_flow s) (environ s) (print_raises s) (state s).

Definition set_serper_search (r : option (string -> outcome string)) (s : server) : server :=
  Server {| vectorstore := vectorstore (parts s); llm := llm (parts s);
            serper_search := r |}
    (embedding_model s) (rag_components_initialized s)
    (rag_agent_flow s) (environ s) (print_raises s) (state s).

(** Lines 538-542: [rag_agent_flow = agent_decision_flow] and
    [rag_components_initialized = True]. *)
Definition set_initialized (s : server) : server :=
  Server (parts s) (embedding_model s) true true (environ s) (print_raises s) (state s).

Definition set_state (w : world) (s : server) : server :=
  Server (parts s) (embedding_model s) (rag_components_initialized s)
    (rag_agent_flow s) (environ s) (print_raises s) w.

Section Startup.

Variable cfg : config.
Variable os : platform.

(** [os.environ[key] = value] *)
Definition putenv (key value : string) (environ : gmap string string)
  : outcome (gmap string string) :=
  match setenv_raises os key value with
  | Some e => Raise e
  | None => Ok (<[key := value]> environ)
  end.

(** [_initialize_llm], lines 48-87: the client, or the exception, and
    [os.environ] afterwards. *)
Definition _initialize_llm (provider : string) (environ : gmap string string)
  : outcome llm_client * gmap string string :=
  if negb (Py.truthy provider)
  then (Raise "No LLM provider specified in config.py", environ)
  else if String.eqb provider "ollama"
  then (make_llm os "ollama" environ, environ)
  else if String.eqb provider "openai"
  then
    if negb (Py.truthy (OPENAI_API_KEY cfg))
    then (Raise "OPENAI_API_KEY not set in config.py", environ)
    else
      match putenv "OPENAI_API_KEY" (OPENAI_API_KEY cfg) environ with
      | Raise e => (Raise e, environ)
      | Ok environ => (make_llm os "openai" environ, environ)
      end
  else if String.eqb provider "gemini"
  then
    if String.eqb (GEMINI_API_KEY cfg) "Dummy to be updated"
       || negb (Py.truthy (GEMINI_API_KEY cfg))
    then (Raise "GEMINI_API_KEY not set in config.py", environ)
    else
      match putenv "GOOGLE_API_KEY" (GEMINI_API_KEY cfg) environ with
      | Raise e => (Raise e, environ)
      | Ok environ => (make_llm os "gemini" environ, environ)
      end
  else if String.eqb provider "claude"
  then
    if negb (Py.truthy (CLAUDE_API_KEY cfg))
    then (Raise "CLAUDE_API_KEY not set in config.py", environ)
    else
      match putenv "ANTHROPIC_API_KEY" (CLAUDE_API_KEY cfg) environ with
      | Raise e => (Raise e, environ)
      | Ok environ => (make_llm os "claude" environ, environ)
      end
  else (Raise ("Unsupported LLM provider: " ++ provider), environ).

(** Lines 525-536: the web search client.  [false] is the step failing
    ([return False]); without an API key web search is switched off. *)
Definition initialize_serper (s : server) : bool * server :=
  if negb (Py.truthy (SERPER_API_KEY cfg))
  then (true, set_serper_search None s)
  else
    match putenv "SERPER_API_KEY" (SERPER_API_KEY cfg) (environ s) with
    | Raise _ => (false, s)
    | Ok os_environ =>
        let s := set_environ os_environ s in
        match make_serper os (environ s) with
        | Ok run => (true, set_serper_search (Some run) s)
        | Raise _ => (false, s)
        end
    end.

(** [initialize_rag_components], lines 474-543: what it returns and the
    globals afterwards.  Its [print] calls are taken to succeed. *)
Definition initialize_rag_components (s : server) : bool * server :=
  match _initialize_llm (ACTIVE_LLM_PROVIDER cfg) (environ s) with
  | (Raise _, os_environ) => (false, set_environ os_environ s)
  | (Ok client, os_environ) =>
      let s := set_llm (client_chain client) (set_environ os_environ s) in
      match client_hello client with
      | Raise _ => (false, s)
      | Ok _ =>
          match make_embeddings os with
          | Raise _ => (false, s)
          | Ok model =>
              let s := set_embedding_model model s in
              if negb (persist_dir_exists os) then (false, s)
              else
                match make_chroma os with
                | Raise _ => (false, s)
                | Ok store =>
                    let s := set_vectorstore store s in
                    match collection_count os with
                    | Raise _ => (false, s)
                    | Ok _ =>
                        match initialize_serper s with
                        | (false, s) => (false, s)
                        | (true, s) => (true, set_initialized s)
                        end
                    end
                end
          end
      end
  end.

End Startup.

(** Whether a string begins, or ends, with an ASCII whitespace character. *)
Definition starts_with_space (s : string) : bool :=
  match s with
  | EmptyString => false
  | String c _ => Py.isspace c
  end.

Fixpoint ends_with_space (s : string) : bool :=
  match s with
  | EmptyString => false
  | String c EmptyString => Py.isspace c
  | String _ r => ends_with_space r
  end.

(** ** The query handler

    [handle_query] is modelled on the requests it is written for: the body,
    as [request.get_json()] returns it, is [None] or a JSON object, of which
    only the key ['query'] is read, and the value under that key is a
    string; [request.remote_addr] is a string.  Other bodies (an array, a
    number, a query that is not a string) are outside this definition. *)

Inductive reply :=
| error_reply (error : string)
| answer_reply (response query source : string) (sources : list string)
| failure_reply (error query source : string) (sources : list string)
  (** an exception leaves the handler, and Flask answers for it *)
| unhandled (error : string).

(** [not data or 'query' not in data], then [data['query']]. *)
Definition query_of (data : option (gmap string string)) : option string :=
  match data with
  | Some fields => fields !! "query"
  | None => None
  end.

(** The lines the handler prints, after their timestamps: lines 556, 568
    and 578. *)
Definition received_line (user_query session_id : string) : string :=
  "Received query: '" ++ user_query ++ "' for session: " ++ session_id.

Definition final_line (user_query llm_response source_label : string) : string :=
  "Final generated response for '" ++ user_query ++ "': '"
  ++ Py.slice_to 100 llm_response ++ "...' (Source: " ++ source_label ++ ")".

Definition error_line (e : string) : string :=
  "ERROR: An unexpected error occurred: " ++ e.

(** The [except] block of [handle_query], lines 577-585, for a body that
    has a query.  Its own [print] is inside no [try]. *)
Definition query_failed (e user_query : string) (s : server) : reply * nat * server :=
  match print_raises s (error_line e) with
  | Some e' => (unhandled e', 500%nat, s)
  | None =>
      (failure_reply ("Internal server error: " ++ e) user_query "System Error" [],
       500%nat, s)
  end.

(** [handle_query], lines 548-585: the JSON reply, the status code and the
    globals afterwards. *)
Definition handle_query (data : option (gmap string string)) (remote_addr : string)
    (s : server) : reply * nat * server :=
  match query_of data with
  | None => (error_reply "Missing query field in request body", 400%nat, s)
  | Some user_query =>
      let session_id := remote_addr in
      match print_raises s (received_line user_query session_id) with
      | Some e => query_failed e user_query s
      | None =>
          if negb (rag_components_initialized s) || negb (rag_agent_flow s)
          then (answer_reply "Backend not fully initialized. Check server logs."
                  user_query "System Error" [], 500%nat, s)
          else
            match agent_decision_flow (parts s) user_query session_id (state s) with
            | (Ok r, w) =>
                match print_raises s
                        (final_line user_query (answer_text r) (source_label r)) with
                | Some e => query_failed e user_query (set_state w s)
                | None =>
                    (answer_reply (Py.strip (answer_text r)) user_query
                       (source_label r) (sources r), 200%nat, set_state w s)
                end
            | (Raise e, w) => query_failed e user_query (set_state w s)
            end
      end
  end.

(** [health_check], lines 625-638: the 'status' and 'message' fields of the
    reply and the status code (the fixed 'service' field and the timestamp
    are left out). *)
Definition health_check (s : server) : string * string * nat :=
  if negb (rag_components_initialized s)
  then ("degraded",
        "RAG/Agent components not initialized. Check backend logs for details.",
        200%nat)
  else ("healthy", "Query Responder RAG API is running.", 200%nat).

(** ** Feedback

    JSON values, as [request.get_json()] and [json.load] return them: the
    Python value a JSON text parses to.  The keys of an object are
    distinct. *)
#[warnings="-register-all"] Inductive json :=
| JNull
| JBool (b : bool)
| JInt (n : Z)
| JFloat (x : float)
| JString (s : string)
| JArray (items : list json)
| JObject (fields : list (string * json)).

(** [type(v).__name__] *)
Definition type_name (v : json) : string :=
  match v with
  | JNull => "NoneType"
  | JBool _ => "bool"
  | JInt _ => "int"
  | JFloat _ => "float"
  | JString _ => "str"
  | JArray _ => "list"
  | JObject _ => "dict"
  end.

(** [bool(v)]: [None], [False], zero, and the empty string, list and dict
    are falsy. *)
Definition json_truthy (v : json) : bool :=
  match v with
  | JNull => false
  | JBool b => b
  | JInt n => negb (Z.eqb n 0)
  | JFloat x => negb (PrimFloat.eqb x 0%float)
  | JString s => Py.truthy s
  | JArray items => match items with [] => false | _ => true end
  | JObject fields => match fields with [] => false | _ => true end
  end.

(** [fields.get(key)] *)
Definition json_field (key : string) (fields : list (string * json)) : option json :=
  match List.find (fun kv => String.eqb key (fst kv)) fields with
  | Some kv => Some (snd kv)
  | None => None
  end.

(** [v == key] for a string [key]. *)
Definition is_string (key : string) (v : json) : bool :=
  match v with
  | JString s => String.eqb key s
  | _ => false
  end.

(** The built-in operations that can fail in the feedback handler.  The
    wording of their messages belongs to the interpreter and changes with
    its version; it is given by [describe] below. *)
Inductive python_error :=
| not_iterable (type : string)
| bad_index (type : string)
| missing_key (key : string)
| no_append (type : string).

(** [feedback_history.json]: missing, present but not loadable ([open] or
    [json.load] raises), or present with the value it parses to. *)
Inductive feedback_file :=
| NoFile
| Unreadable (e : string)
| Parsed (content : json).

Inductive feedback_reply :=
| feedback_message (message : string)
| feedback_error (error : string).

(** [feedback_data], lines 595-601. *)
Definition feedback_data (now : string) (query response liked : json) : json :=
  JObject [("timestamp", JString now); ("user_id", JString "dummy_user_id");
           ("query", query); ("response", response); ("liked", liked)].

Section Feedback.

(** [str(e)] for the built-in failures. *)
Variable describe : python_error -> string.

(** [key in v], for a string [key]: a key of a dict, an element of a list,
    a substring of a string; a [TypeError] for the other values. *)
Definition json_in (key : string) (v : json) : outcome bool :=
  match v with
  | JObject fields =>
      Ok (match json_field key fields with Some _ => true | None => false end)
  | JArray items => Ok (existsb (is_string key) items)
  | JString s => Ok (Py.contains key s)
  | other => Raise (describe (not_iterable (type_name other)))
  end.

(** [v[key]], for a string [key]. *)
Definition json_item (v : json) (key : string) : outcome json :=
  match v with
  | JObject fields =>
      match json_field key fields with
      | Some x => Ok x
      | None => Raise (describe (missing_key key))
      end
  | other => Raise (describe (bad_index (type_name other)))
  end.

(** [handle_feedback], lines 588-622.  [request_json] is what
    [request.get_json()] does, [now] is [datetime.now().isoformat()].
    Writing the file back is taken to succeed. *)
Definition handle_feedback (request_json : outcome json) (now : string)
    (file : feedback_file) : feedback_reply * nat * feedback_file :=
  let missing := (feedback_error "Missing fields in feedback data", 400%nat, file) in
  let failed := fun e => (feedback_error ("Internal server error: " ++ e), 500%nat, file) in
  match request_json with
  | Raise e => failed e
  | Ok data =>
      if negb (json_truthy data) then missing
      else
        match json_in "query" data with
        | Raise e => failed e
        | Ok false => missing
        | Ok true =>
        match json_in "response" data with
        | Raise e => failed e
        | Ok false => missing
        | Ok true =>
        match json_in "liked" data with
        | Raise e => failed e
        | Ok false => missing
        | Ok true =>
        match json_item data "query" with
        | Raise e => failed e
        | Ok query =>
        match json_item data "response" with
        | Raise e => failed e
        | Ok response =>
        match json_item data "liked" with
        | Raise e => failed e
        | Ok liked =>
            let entry := feedback_data now query response liked in
            match file with
            | NoFile =>
                (feedback_message "Feedback received successfully", 200%nat,
                 Parsed (JArray [entry]))
            | Parsed (JArray history) =>
                (feedback_message "Feedback received successfully", 200%nat,
                 Parsed (JArray (history ++ [entry])))
            | Parsed other => failed (describe (no_append (type_name other)))
            | Unreadable e => failed e
            end
        end end end end end end
  end.

(** A series of feedback requests, each with its body and its time. *)
Fixpoint handle_feedbacks (requests : list (outcome json * string))
    (file : feedback_file) : list nat * feedback_file :=
  match requests with
  | [] => ([], file)
  | (request_json, now) :: rest =>
      let '(_, status, file) := handle_feedback request_json now file in
      let '(statuses, file) := handle_feedbacks rest file in
      (status :: statuses, file)
  end.

End Feedback.

(** The entries of a well-formed history file. *)
Definition history_of (file : feedback_file) : option (list json) :=
  match file with
  | NoFile => Some []
  | Parsed (JArray history) => Some history
  | _ => None
  end.

Module Site.

Definition client : llm_client :=
  {| client_chain := Sample.model "yes"; client_hello := Ok "Hello! How can I help?" |}.

(** A host on which every start-up step succeeds. *)
Definition healthy : platform :=
  {| make_llm := fun _ _ => Ok client;
     make_embeddings := Ok HuggingFaceEmbeddings;
     persist_dir_exists := true;
     make_chroma := Ok (Sample.store_of Sample.refund_doc 0.42%float);
     collection_count := Ok 12%nat;
     make_serper := fun _ => Ok (fun q => Ok ("results for " ++ q));
     setenv_raises := fun _ _ => None |}.

(** The same host before the ingestion pipeline has run. *)
Definition not_ingested : platform :=
  {| make_llm := fun _ _ => Ok client;
     make_embeddings := Ok HuggingFaceEmbeddings;
     persist_dir_exists := false;
     make_chroma := Raise "no such directory";
     collection_count := Raise "no collection";
     make_serper := fun _ => Ok (fun q => Ok ("results for " ++ q));
     setenv_raises := fun _ _ => None |}.

(** A model that pads its answers with whitespace. *)
Definition wordy_client : llm_client :=
  {| client_chain :=
       fun p inputs =>
         match p with
         | RAG_PROMPT_TEMPLATE => Ok ("  An answer. " ++ Py.newline)
         | _ => Sample.model "yes" p inputs
         end;
     client_hello := Ok "Hello!" |}.

Definition wordy : platform :=
  {| make_llm := fun _ _ => Ok wordy_client;
     make_embeddings := Ok HuggingFaceEmbeddings;
     persist_dir_exists := true;
     make_chroma := Ok (Sample.store_of Sample.refund_doc 0.42%float);
     collection_count := Ok 12%nat;
     make_serper := fun _ => Ok (fun q => Ok ("results for " ++ q));
     setenv_raises := fun _ _ => None |}.

Definition ollama_config : config :=
  {| ACTIVE_LLM_PROVIDER := "ollama";
     OPENAI_API_KEY := ""; GEMINI_API_KEY := "Dummy to be updated";
     CLAUDE_API_KEY := ""; SERPER_API_KEY := "" |}.

Definition openai_config : config :=
  {| ACTIVE_LLM_PROVIDER := "openai";
     OPENAI_API_KEY := "sk-test"; GEMINI_API_KEY := "Dummy to be updated";
     CLAUDE_API_KEY := ""; SERPER_API_KEY := "serper-test" |}.

(** The process environment before and after start-up with "openai". *)
Definition bare_environ : gmap string string := ∅.

Definition openai_environ : gmap string string :=
  <["OPENAI_API_KEY" := "sk-test"]> bare_environ.

Definition body (query : string) : option (gmap string string) :=
  Some {[ "query" := query ]}.

(** A standard output that takes every text. *)
Definition stdout : string -> option string := fun _ => None.

(** Whether a text holds a lone surrogate (ED A0 80 to ED BF BF). *)
Fixpoint has_surrogate (s : string) : bool :=
  match s with
  | String c1 ((String c2 _) as r) =>
      ((nat_of_ascii c1 =? 237)%nat && (160 <=? nat_of_ascii c2)%nat)
      || has_surrogate r
  | _ => false
  end.

(** A standard output encoded as UTF-8: [print] raises on a lone
    surrogate (the message is cut short here). *)
Definition utf8_stdout (text : string) : option string :=
  if has_surrogate text then Some "surrogates not allowed" else None.


(** The server once start-up has succeeded. *)
Definition serving : server :=
  snd (initialize_rag_components ollama_config wordy (initial_server stdout bare_environ)).

(** The same, printing to a UTF-8 output. *)
Definition serving_utf8 : server :=
  snd (initialize_rag_components ollama_config wordy
         (initial_server utf8_stdout bare_environ)).

Definition feedback_body : outcome json :=
  Ok (JObject [("query", JString "What is the refund policy?");
               ("response", JString "Refunds are issued within 30 days.");
               ("liked", JBool true)]).

(** A body that is not an object but holds the three names. *)
Definition odd_body : outcome json :=
  Ok (JArray [JString "query"; JString "response"; JString "liked"]).

(** The messages of CPython 3.11. *)
Definition describe (e : python_error) : string :=
  match e with
  | not_iterable type => "argument of type '" ++ type ++ "' is not iterable"
  | bad_index "list" => "list indices must be integers or slices, not str"
  | bad_index "str" => "string indices must be integers, not 'str'"
  | bad_index type => "'" ++ type ++ "' object is not subscriptable"
  | missing_key key => "'" ++ key ++ "'"
  | no_append type => "'" ++ type ++ "' object has no attribute 'append'"
  end.

End Site.

(** * Properties *)

(** ** Strings *)

Lemma prefix_refl (s : string) : String.prefix s s = true.
Proof.
  induction s as [|c s IH]; simpl; [reflexivity|].
  destruct (ascii_dec c c); [exact IH | congruence].
Qed.

Lemma prefix_app (p r : string) : String.prefix p (p ++ r) = true.
Proof.
  induction p as [|c p IH]; simpl.
  - destruct r; reflexivity.
  - destruct (ascii_dec c c); [exact IH | congruence].
Qed.

Lemma prefix_split (p s : string) :
  String.prefix p s = true <-> exists r, s = p ++ r.
Proof.
  split.
  - revert s. induction p as [|c p IH]; intros s H.
    + exists s. reflexivity.
    + destruct s as [|d s]; simpl in H; [discriminate|].
      destruct (ascii_dec c d) as [->|]; [|discriminate].
      destruct (IH s H) as [r ->]. exists r. reflexivity.
  - intros [r ->]. apply prefix_app.
Qed.

Lemma contains_suffix (sub pre : string) : Py.contains sub (pre ++ sub) = true.
Proof.
  induction pre as [|c pre IH]; simpl.
  - destruct sub as [|a sub]; simpl; [reflexivity|].
    rewrite prefix_refl. destruct (ascii_dec a a); [reflexivity | congruence].
  - rewrite IH. apply orb_true_r.
Qed.

Lemma contains_prefix (sub post : string) : Py.contains sub (sub ++ post) = true.
Proof.
  destruct sub as [|c sub]; simpl.
  - destruct post; reflexivity.
  - destruct (ascii_dec c c); [|congruence]. now rewrite prefix_app.
Qed.

Lemma mem_In (x : string) (l : list string) : Py.mem x l = true <-> In x l.
Proof.
  unfold Py.mem. rewrite existsb_exists. split.
  - intros [y [Hy E]]. apply String.eqb_eq in E. now subst.
  - intros H. exists x. split; [exact H | apply String.eqb_refl].
Qed.

(** ** The tools *)

Section ToolFacts.

Variable env : components.



(** A chunk that [first_trigger] accepts is one [filtered_chunks] keeps:
    [score < 0.7] gives [score <= 0.7]. *)
Lemma ltb_leb (x y : float) : PrimFloat.ltb x y = true -> PrimFloat.leb x y = true.
Proof.
  rewrite ltb_spec, leb_spec. unfold SFltb, SFleb.
  destruct (SFcompare _ _) as [[| |]|]; congruence.
Qed.

Lemma first_trigger_Some (docs : list (Document * float)) (t : string * list string) :
  first_trigger docs = Some t ->
  t = ("trigger_success", [])
  /\ exists doc score, In (doc, score) docs /\ PrimFloat.ltb score SCORE_THRESHOLD = true.
Proof.
  induction docs as [|[doc score] rest IH]; simpl; [discriminate|].
  destruct (PrimFloat.ltb score SCORE_THRESHOLD) eqn:L.
  - intros [= <-]. split; [reflexivity|]. exists doc, score. auto.
  - intros H. destruct (IH H) as [-> (d & s & Hin & Hs)].
    split; [reflexivity|]. exists d, s. auto.
Qed.

Lemma first_trigger_iff (docs : list (Document * float)) :
  first_trigger docs = Some ("trigger_success", [])
  <-> exists doc score, In (doc, score) docs /\ PrimFloat.ltb score SCORE_THRESHOLD = true.
Proof.
  split.
  - intros H. now apply first_trigger_Some in H.
  - intros (doc & score & Hin & Hs).
    induction docs as [|[d s] rest IH]; simpl in *; [contradiction|].
    destruct (PrimFloat.ltb s SCORE_THRESHOLD) eqn:L; [reflexivity|].
    destruct Hin as [[= -> ->] | Hin]; [congruence | auto].
Qed.

Lemma filtered_chunks_iff (chunks : list (Document * float)) doc score :
  In (doc, score) (filtered_chunks chunks)
  <-> In (doc, score) chunks /\ PrimFloat.leb score SCORE_THRESHOLD = true.
Proof. unfold filtered_chunks. now rewrite filter_In. Qed.

(** When retrieval finds chunks that pass the filter, the context is the
    join of all of them. *)
Lemma retrieve_from_docs_kept search (query : string) chunks :
  vectorstore env = Some search ->
  search query 8%nat = Ok chunks ->
  filtered_chunks chunks <> [] ->
  retrieve_from_docs env query
  = (context_text (map fst (filtered_chunks chunks)),
     Py.list_set (map source_of (map fst (filtered_chunks chunks)))).
Proof.
  intros Hv Hs Hne. unfold retrieve_from_docs. rewrite Hv, Hs.
  destruct (filtered_chunks chunks); [congruence | reflexivity].
Qed.

(** The three sentinels of [retrieve_from_docs] are caught by the test the
    flow applies to the context. *)
Lemma retrieve_from_docs_sentinel search (query : string) :
  vectorstore env = None
  \/ (vectorstore env = Some search
      /\ ((exists e, search query 8%nat = Raise e)
          \/ exists chunks, search query 8%nat = Ok chunks
                            /\ filtered_chunks chunks = [])) ->
  retrieval_failed (fst (retrieve_from_docs env query)) = true.
Proof.
  unfold retrieve_from_docs.
  intros [-> | [-> [[e ->] | [chunks [-> ->]]]]]; simpl fst.
  - reflexivity.
  - unfold retrieval_failed.
    change ("Error during local document retrieval: " ++ e)
      with ("Error" ++ (" during local document retrieval: " ++ e)).
    now rewrite contains_prefix.
  - reflexivity.
Qed.

End ToolFacts.

(** C9. [check_relevance] answers true exactly when the model call succeeds
    and its output, stripped and lowercased, starts with ["yes"]; without a
    model, or when the call raises, it answers false.  Stripping removes
    whitespace of any kind at both ends, and only there; the case of the
    letters does not matter. *)
Theorem check_relevance_fail_closed (env : components) (question context : string) :
  (check_relevance env question context = true <->
   exists invoke grade rest,
     llm env = Some invoke
     /\ invoke RELEVANCE_GRADER_PROMPT
          [("question", question); ("context", context)] = Ok grade
     /\ Py.lower (Py.strip grade) = "yes" ++ rest)
  /\ (llm env = None -> check_relevance env question context = false)
  /\ (forall invoke e,
        llm env = Some invoke ->
        invoke RELEVANCE_GRADER_PROMPT
          [("question", question); ("context", context)] = Raise e ->
        check_relevance env question context = false)
  /\ Py.lower (Py.strip (Py.nbsp ++ " YeS, it does." ++ Py.newline)) = "yes, it does."
  /\ check_relevance (Sample.env_of Sample.refund_doc 0.42%float
                        (Py.newline ++ Py.nbsp ++ "YES" ++ Py.nbsp))
       question context = true
  /\ check_relevance (Sample.env_of Sample.refund_doc 0.42%float "Oh yes")
       question context = false
  /\ check_relevance (Sample.env_of Sample.refund_doc 0.42%float "y e s")
       question context = false.
Proof.
  split; [|split; [|split; [|split; [|split; [|split]]]]]; try reflexivity;
    unfold check_relevance.
  - split.
    + destruct (llm env) as [invoke|]; [|discriminate].
      destruct (invoke _ _) as [grade|e] eqn:G; [|discriminate].
      intros H. apply prefix_split in H as [rest H].
      exists invoke, grade, rest. auto.
    + intros (invoke & grade & rest & -> & -> & E).
      unfold Py.startswith. apply prefix_split. eauto.
  - intros ->. reflexivity.
  - intros invoke e -> ->. reflexivity.
Qed.

(** C10. A chunk whose score is exactly 0.7 is kept by the filter of
    [retrieve_from_docs] and does not trigger [check_exact_match]; with a
    store that returns such a chunk, retrieval yields its text as context
    while the trigger stays off, and the flow answers on the standard path. *)
Theorem boundary_score_kept_without_trigger :
  (forall doc score chunks,
      In (doc, score) (filtered_chunks chunks)
      <-> In (doc, score) chunks /\ PrimFloat.leb score 0.7 = true)
  /\ (forall docs,
        first_trigger docs <> None
        <-> exists doc score, In (doc, score) docs /\ PrimFloat.ltb score 0.7 = true)
  /\ PrimFloat.leb 0.7 0.7 = true
  /\ PrimFloat.ltb 0.7 0.7 = false
  /\ (forall doc chunks,
        In (doc, 0.7%float) chunks -> In (doc, 0.7%float) (filtered_chunks chunks))
  /\ (forall doc, first_trigger [(doc, 0.7%float)] = None)
  /\ (forall doc grade query,
        let env := Sample.env_of doc 0.7%float grade in
        retrieve_from_docs env query = (page_content doc, [source_of doc])
        /\ check_exact_match env query = None)
  /\ source_label
       (match fst (agent_decision_flow (Sample.env_of Sample.refund_doc 0.7%float "yes")
                     "What is the refund policy?" Sample.SESSION Sample.empty_world) with
        | Ok r => r
        | Raise e => internal_error e
        end) = "Agent + Internal Docs".
Proof.
  split; [|split; [|split; [|split; [|split; [|split; [|split]]]]]].
  - intros doc score chunks. apply filtered_chunks_iff.
  - intros docs. rewrite <- first_trigger_iff. split.
    + destruct (first_trigger docs) as [t|] eqn:E; [|congruence].
      now destruct (first_trigger_Some _ _ E) as [-> _].
    + congruence.
  - reflexivity.
  - reflexivity.
  - intros doc chunks H. apply filtered_chunks_iff. split; [exact H | reflexivity].
  - intros doc. reflexivity.
  - intros doc grade query. split.
    + unfold retrieve_from_docs. simpl. unfold context_text. simpl.
      now destruct (page_content doc).
    + reflexivity.
  - vm_compute. reflexivity.
Qed.

(** ** The retrieval part of the flow, case by case *)

Ltac unfold_turn :=
  unfold agent_decision_flow, agent_decision_flow_body, hybrid_logic,
    try_except, bind, tool, ret, raise, chain_invoke,
    session_get, session_pop, session_set, record_call.

Ltac unfold_flow := unfold_turn; simpl.

Ltac tidy_calls := simpl; repeat rewrite <- List.app_assoc; simpl.

Section FlowFacts.

Variable env : components.

(** High-confidence path, retrieval caught by the sentinel test. *)
Lemma hybrid_trigger_failed (q sid : string) (w : world) t :
  check_exact_match env q = Some t ->
  retrieval_failed (fst (retrieve_from_docs env q)) = true ->
  hybrid_logic env q sid w
  = (Ok (Response NO_CONTEXT_MESSAGE "System Error" []),
     World (session_store w)
       (calls w ++ [call_check_exact_match q; call_retrieve_from_docs q])).
Proof.
  intros Ht Hf. unfold_flow. rewrite Ht.
  destruct (retrieve_from_docs env q) as [ctx srcs]; simpl in *.
  rewrite Hf. now tidy_calls.
Qed.

(** High-confidence path, synthesis over the retrieved context. *)
Lemma hybrid_trigger_synthesis (q sid : string) (w : world) t invoke :
  check_exact_match env q = Some t ->
  retrieval_failed (fst (retrieve_from_docs env q)) = false ->
  llm env = Some invoke ->
  hybrid_logic env q sid w
  = (match invoke RAG_PROMPT_TEMPLATE (rag_inputs (fst (retrieve_from_docs env q)) q) with
     | Ok final_answer =>
         Ok (Response final_answer "Agent (High-Confidence RAG)"
               (snd (retrieve_from_docs env q)))
     | Raise e => Raise e
     end,
     World (session_store w)
       (calls w ++ [call_check_exact_match q; call_retrieve_from_docs q;
                    call_invoke RAG_PROMPT_TEMPLATE
                      (rag_inputs (fst (retrieve_from_docs env q)) q)])).
Proof.
  intros Ht Hf Hm. unfold_flow. rewrite Ht.
  destruct (retrieve_from_docs env q) as [ctx srcs]; simpl in *.
  rewrite Hf, Hm. now destruct (invoke _ _); tidy_calls.
Qed.

(** Standard path, retrieval caught by the sentinel test: the grader is
    not asked. *)
Lemma hybrid_standard_failed (q sid : string) (w : world) :
  check_exact_match env q = None ->
  retrieval_failed (fst (retrieve_from_docs env q)) = true ->
  hybrid_logic env q sid w
  = (Ok (Response PERMISSION_QUESTION "Agent (Multi-turn)" []),
     World (permission_store sid q (session_store w))
       (calls w ++ [call_check_exact_match q; call_retrieve_from_docs q])).
Proof.
  intros Ht Hf. unfold_flow. rewrite Ht.
  destruct (retrieve_from_docs env q) as [ctx srcs]; simpl in *.
  unfold retrieval_failed in Hf.
  destruct (Py.contains "Error" ctx), (Py.contains "No relevant documents" ctx);
    try discriminate; now tidy_calls.
Qed.

(** Standard path, context graded. *)
Lemma hybrid_standard_graded (q sid : string) (w : world) :
  check_exact_match env q = None ->
  retrieval_failed (fst (retrieve_from_docs env q)) = false ->
  let ctx := fst (retrieve_from_docs env q) in
  let graded : list call :=
    (calls w ++ [call_check_exact_match q; call_retrieve_from_docs q;
                 call_check_relevance q ctx])%list in
  hybrid_logic env q sid w
  = if check_relevance env q ctx
    then match llm env with
         | Some invoke =>
             (match invoke RAG_PROMPT_TEMPLATE (rag_inputs ctx q) with
              | Ok final_answer =>
                  Ok (Response final_answer "Agent + Internal Docs"
                        (snd (retrieve_from_docs env q)))
              | Raise e => Raise e
              end,
              World (session_store w)
                (graded ++ [call_invoke RAG_PROMPT_TEMPLATE (rag_inputs ctx q)]))
         | None => (Raise NOT_RUNNABLE, World (session_store w) graded)
         end
    else (Ok (Response PERMISSION_QUESTION "Agent (Multi-turn)" []),
          World (permission_store sid q (session_store w)) graded).
Proof.
  intros Ht Hf. unfold_flow. rewrite Ht.
  destruct (retrieve_from_docs env q) as [ctx srcs]; simpl in *.
  unfold retrieval_failed in Hf.
  destruct (Py.contains "Error" ctx), (Py.contains "No relevant documents" ctx);
    try discriminate; simpl.
  destruct (check_relevance env q ctx); [|now tidy_calls].
  destruct (llm env) as [invoke|]; [|now tidy_calls].
  now destruct (invoke _ _); tidy_calls.
Qed.

(** What the retrieval part of the flow may do: it starts with the
    confidence check, never asks the ambiguity detector or the web, and
    either leaves the sessions alone or files a web-permission request. *)
Lemma hybrid_logic_shape (q sid : string) (w : world) :
  exists o rest,
    hybrid_logic env q sid w
    = (o, World (session_store (snd (hybrid_logic env q sid w)))
            (calls w ++ call_check_exact_match q :: rest))
    /\ (forall q', ~ In (call_check_for_ambiguity q') rest)
    /\ (forall q', ~ In (call_search_web q') rest)
    /\ (session_store (snd (hybrid_logic env q sid w)) = session_store w
        \/ (session_store (snd (hybrid_logic env q sid w))
             = permission_store sid q (session_store w)
            /\ o = Ok (Response PERMISSION_QUESTION "Agent (Multi-turn)" []))).
Proof.
  destruct (check_exact_match env q) as [t|] eqn:Ht;
    destruct (retrieval_failed (fst (retrieve_from_docs env q))) eqn:Hf.
  - rewrite (hybrid_trigger_failed _ _ _ _ Ht Hf). simpl.
    eexists _, [_]. split; [reflexivity|].
    repeat split; try (intros q' [H|[]]; discriminate). now left.
  - destruct (llm env) as [invoke|] eqn:Hm.
    + rewrite (hybrid_trigger_synthesis _ _ _ _ _ Ht Hf Hm). simpl.
      eexists _, [_; _]. split; [reflexivity|].
      repeat split; try (intros q' [H|[H|[]]]; discriminate). now left.
    + unfold_flow. rewrite Ht.
      destruct (retrieve_from_docs env q) as [ctx srcs]; simpl in *.
      rewrite Hf, Hm. tidy_calls.
      eexists _, [_]. split; [reflexivity|].
      repeat split; try (intros q' [H|[]]; discriminate). now left.
  - rewrite (hybrid_standard_failed _ _ _ Ht Hf). simpl.
    eexists _, [_]. split; [reflexivity|].
    repeat split; try (intros q' [H|[]]; discriminate). now right.
  - rewrite (hybrid_standard_graded _ _ _ Ht Hf).
    destruct (check_relevance env q _); [destruct (llm env) as [invoke|]|]; simpl.
    + eexists _, [_; _; _]. tidy_calls. split; [reflexivity|].
      repeat split; try (intros q' [H|[H|[H|[]]]]; discriminate). now left.
    + eexists _, [_; _]. split; [reflexivity|].
      repeat split; try (intros q' [H|[H|[]]]; discriminate). now left.
    + eexists _, [_; _]. split; [reflexivity|].
      repeat split; try (intros q' [H|[H|[]]]; discriminate). now right.
Qed.

(** The turn, once it has reached the retrieval part. *)
Lemma reaches_main_flow_run (input sid : string) (w : world) q w1 :
  reaches_main_flow env input sid w q w1 ->
  agent_decision_flow env input sid w
  = try_except (hybrid_logic env q sid) (fun e => ret (internal_error e)) w1.
Proof.
  intros [Hfresh Hclear | invoke pending new_query Hs Hm Hr].
  - unfold agent_decision_flow, agent_decision_flow_body, try_except at 1,
      bind at 1, session_get. rewrite Hfresh.
    unfold bind at 1, tool at 1. rewrite Hclear. reflexivity.
  - unfold agent_decision_flow, agent_decision_flow_body, try_except at 1,
      bind at 1, session_get. rewrite Hs.
    unfold bind at 1, chain_invoke at 1. rewrite Hm, Hr.
    unfold bind at 1, session_pop, record_call. reflexivity.
Qed.

Lemma reaches_main_flow_store (input sid : string) (w : world) q w1 query :
  reaches_main_flow env input sid w q w1 ->
  permission_store sid query (session_store w1)
  = permission_store sid query (session_store w).
Proof.
  intros [|]; simpl; [reflexivity|]. apply insert_delete_eq.
Qed.

End FlowFacts.

(** ** The turn as a whole *)



(** C4. [agent_decision_flow] always returns a response and never raises;
    when an exception with message [e] is raised inside the flow, the
    response is "An internal agent error occurred: " followed by [e], under
    the label "System Error", with no sources. *)
Theorem agent_decision_flow_total
    (env : components) (input_query session_id : string) (w : world) :
  (exists r w', agent_decision_flow env input_query session_id w = (Ok r, w'))
  /\ (forall e w',
        agent_decision_flow_body env input_query session_id w = (Raise e, w') ->
        exists text,
          agent_decision_flow env input_query session_id w
          = (Ok (Response text "System Error" []), w')
          /\ text = "An internal agent error occurred: " ++ e
          /\ Py.contains e text = true)
  /\ (forall r w',
        agent_decision_flow_body env input_query session_id w = (Ok r, w') ->
        agent_decision_flow env input_query session_id w = (Ok r, w')).
Proof.
  unfold agent_decision_flow, try_except.
  destruct (agent_decision_flow_body env input_query session_id w) as [[r|e] w1].
  - split; [eauto|]. split; [discriminate|]. intros ? ? [= <- <-]. reflexivity.
  - split; [unfold ret, internal_error; eauto|].
    split; [|discriminate]. intros ? ? [= <- <-].
    eexists. split; [reflexivity|]. split; [reflexivity|]. apply contains_suffix.
Qed.

(** The handler is not dead code: without a model, the chain of the
    high-confidence path cannot be built. *)
Example agent_decision_flow_catches :
  agent_decision_flow
    {| vectorstore := Some (Sample.store_of Sample.refund_doc 0.42%float);
       llm := None; serper_search := None |}
    "What is the refund policy?" Sample.SESSION Sample.empty_world
  = (Ok (internal_error NOT_RUNNABLE),
     World ∅ [call_check_for_ambiguity "What is the refund policy?";
              call_check_exact_match "What is the refund policy?";
              call_retrieve_from_docs "What is the refund policy?"]).
Proof. vm_compute. reflexivity. Qed.

(** C5. Standard path: when the context fails the sentinel test, or the
    grader finds it not relevant, the session is filed as awaiting web
    permission for the query, the permission question is returned under
    "Agent (Multi-turn)", and no web search happens in the turn; in the
    sentinel case the grader is not called. *)
Theorem insufficient_docs_ask_permission
    (env : components) (input_query session_id : string) (w : world) q w1 :
  reaches_main_flow env input_query session_id w q w1 ->
  check_exact_match env q = None ->
  retrieval_failed (fst (retrieve_from_docs env q)) = true
  \/ check_relevance env q (fst (retrieve_from_docs env q)) = false ->
  exists turn_calls,
    agent_decision_flow env input_query session_id w
    = (Ok (Response PERMISSION_QUESTION "Agent (Multi-turn)" []),
       World (<[session_id := {| last_agent_action := awaiting_web_permission;
                                 last_query := q |}]> (session_store w))
         (calls w ++ turn_calls))
    /\ (forall q', ~ In (call_search_web q') turn_calls)
    /\ (retrieval_failed (fst (retrieve_from_docs env q)) = true ->
        forall q' c, ~ In (call_check_relevance q' c) turn_calls).
Proof.
  intros Hreach Ht Hbad.
  rewrite (reaches_main_flow_run _ _ _ _ _ _ Hreach). unfold try_except.
  pose proof (reaches_main_flow_store env _ _ _ _ _ q Hreach) as Hstore.
  unfold permission_store in Hstore.
  destruct (retrieval_failed (fst (retrieve_from_docs env q))) eqn:Hf.
  - rewrite (hybrid_standard_failed _ _ _ _ Ht Hf).
    unfold permission_store. rewrite Hstore.
    destruct Hreach; simpl; tidy_calls; eexists; (split; [reflexivity|]);
      split; intros; simpl; intuition discriminate.
  - destruct Hbad as [|Hrel]; [discriminate|].
    rewrite (hybrid_standard_graded _ _ _ _ Ht Hf). simpl. rewrite Hrel.
    unfold permission_store. rewrite Hstore.
    destruct Hreach; simpl; tidy_calls; eexists; (split; [reflexivity|]);
      split; intros; simpl; intuition discriminate.
Qed.

Lemma insufficient_docs_ask_permission_witness :
  exists turn_calls,
    agent_decision_flow (Sample.env_of Sample.refund_doc 0.85%float "yes")
      "What is the refund policy?" Sample.SESSION Sample.empty_world
    = (Ok (Response PERMISSION_QUESTION "Agent (Multi-turn)" []),
       World (<[Sample.SESSION := {| last_agent_action := awaiting_web_permission;
                                     last_query := "What is the refund policy?" |}]> ∅)
         ([] ++ turn_calls))
    /\ (forall q', ~ In (call_search_web q') turn_calls)
    /\ (retrieval_failed
          (fst (retrieve_from_docs (Sample.env_of Sample.refund_doc 0.85%float "yes")
                  "What is the refund policy?")) = true ->
        forall q' c, ~ In (call_check_relevance q' c) turn_calls).
Proof.
  apply (insufficient_docs_ask_permission
           (Sample.env_of Sample.refund_doc 0.85%float "yes")
           "What is the refund policy?" Sample.SESSION Sample.empty_world
           "What is the refund policy?"
           (record_call (call_check_for_ambiguity "What is the refund policy?")
              Sample.empty_world)).
  - apply reaches_fresh; reflexivity.
  - reflexivity.
  - left. reflexivity.
Defined.

(** C6, as stated, fails: the trigger fires and retrieval returns a
    context that passes the sentinel test, but the synthesis call raises;
    the turn ends under "System Error" with the text of the exception, not
    under "Agent (High-Confidence RAG)". *)
Lemma high_confidence_synthesis_failure :
  check_exact_match Fixture.degraded_env "What is the refund policy?"
  = Some ("trigger_success", [])
  /\ retrieval_failed
       (fst (retrieve_from_docs Fixture.degraded_env "What is the refund policy?"))
     = false
  /\ agent_decision_flow Fixture.degraded_env "What is the refund policy?"
       Sample.SESSION Sample.empty_world
     = (Ok (Response "An internal agent error occurred: Read timed out"
              "System Error" []),
        World ∅
          [call_check_for_ambiguity "What is the refund policy?";
           call_check_exact_match "What is the refund policy?";
           call_retrieve_from_docs "What is the refund policy?";
           call_invoke RAG_PROMPT_TEMPLATE
             [("context", "Refunds are issued within 30 days of purchase.");
              ("question", "What is the refund policy?")]]).
Proof. repeat split; vm_compute; reflexivity. Qed.

(** C6, amended.  High-confidence path: once [check_exact_match] has
    triggered on the query of the turn (fresh or rephrased),
    [retrieve_from_docs] is called.  If its context fails the sentinel test
    the degraded "System Error" response is returned and no chain is
    invoked.  Otherwise the RAG chain is invoked on that context and the
    query: when it returns, its answer is returned under
    "Agent (High-Confidence RAG)" with the sources of the retrieval; when it
    raises, the turn ends under "System Error" with the text of the
    exception; without a model nothing is invoked and the turn ends under
    "System Error".  No session is filed.  The context is the join of the
    texts of all chunks of the [k=8] search that pass the filter. *)
Theorem high_confidence_path
    (env : components) (input_query session_id : string) (w : world) q w1 t :
  reaches_main_flow env input_query session_id w q w1 ->
  check_exact_match env q = Some t ->
  (retrieval_failed (fst (retrieve_from_docs env q)) = true ->
   agent_decision_flow env input_query session_id w
   = (Ok (Response NO_CONTEXT_MESSAGE "System Error" []),
      World (session_store w1)
        (calls w1 ++ [call_check_exact_match q; call_retrieve_from_docs q])))
  /\ (retrieval_failed (fst (retrieve_from_docs env q)) = false ->
      forall invoke,
        llm env = Some invoke ->
        agent_decision_flow env input_query session_id w
        = (Ok match invoke RAG_PROMPT_TEMPLATE
                      [("context", fst (retrieve_from_docs env q)); ("question", q)] with
              | Ok final_answer =>
                  Response final_answer "Agent (High-Confidence RAG)"
                    (snd (retrieve_from_docs env q))
              | Raise e =>
                  Response ("An internal agent error occurred: " ++ e)
                    "System Error" []
              end,
           World (session_store w1)
             (calls w1 ++ [call_check_exact_match q; call_retrieve_from_docs q;
                           call_invoke RAG_PROMPT_TEMPLATE
                             [("context", fst (retrieve_from_docs env q));
                              ("question", q)]])))
  /\ (retrieval_failed (fst (retrieve_from_docs env q)) = false ->
      llm env = None ->
      exists text,
        agent_decision_flow env input_query session_id w
        = (Ok (Response text "System Error" []),
           World (session_store w1)
             (calls w1 ++ [call_check_exact_match q; call_retrieve_from_docs q])))
  /\ (forall search chunks,
        vectorstore env = Some search ->
        search q 8%nat = Ok chunks ->
        filtered_chunks chunks <> [] ->
        fst (retrieve_from_docs env q)
        = Py.join CONTEXT_SEPARATOR
            (map page_content (map fst (filtered_chunks chunks)))).
Proof.
  intros Hreach Ht.
  rewrite (reaches_main_flow_run _ _ _ _ _ _ Hreach). unfold try_except.
  split; [|split; [|split]].
  - intros Hf. now rewrite (hybrid_trigger_failed _ _ _ _ _ Ht Hf).
  - intros Hf invoke Hm.
    rewrite (hybrid_trigger_synthesis _ _ _ _ _ _ Ht Hf Hm).
    unfold rag_inputs. now destruct (invoke _ _).
  - intros Hf Hm. unfold hybrid_logic, bind, tool, ret, raise, chain_invoke.
    rewrite Ht.
    destruct (retrieve_from_docs env q) as [ctx srcs]; simpl in *.
    rewrite Hf, Hm. unfold record_call, internal_error. tidy_calls. eauto.
  - intros search chunks Hv Hs Hne.
    now rewrite (retrieve_from_docs_kept _ _ _ _ Hv Hs Hne).
Qed.

Lemma high_confidence_path_witness :
  agent_decision_flow Fixture.library_env
    "What is the refund policy?" Sample.SESSION Sample.empty_world
  = (Ok (Response "An answer." "Agent (High-Confidence RAG)"
           (snd (retrieve_from_docs Fixture.library_env "What is the refund policy?"))),
     World ∅
       [call_check_for_ambiguity "What is the refund policy?";
        call_check_exact_match "What is the refund policy?";
        call_retrieve_from_docs "What is the refund policy?";
        call_invoke RAG_PROMPT_TEMPLATE
          [("context",
            "Refunds are issued within 30 days of purchase."
            ++ CONTEXT_SEPARATOR
            ++ "Leave requests are approved by the line manager.");
           ("question", "What is the refund policy?")]]).
Proof.
  refine (proj1 (proj2
    (high_confidence_path Fixture.library_env
       "What is the refund policy?" Sample.SESSION Sample.empty_world
       "What is the refund policy?"
       (record_call (call_check_for_ambiguity "What is the refund policy?")
          Sample.empty_world)
       ("trigger_success", []) _ _))
    _ (Sample.model "yes") _).
  - apply reaches_fresh; reflexivity.
  - reflexivity.
  - reflexivity.
  - reflexivity.
Defined.

(** C8. Retrieval succeeds and keeps chunks, but their joined text contains
    "Error" or "No relevant documents": the flow takes it for a failed
    retrieval.  On the standard path the grader is not called and the
    web-permission request is filed and returned; on the high-confidence
    path the degraded "System Error" response is returned. *)
Theorem passage_text_taken_for_sentinel
    (env : components) (input_query session_id : string) (w : world) q w1 search chunks :
  reaches_main_flow env input_query session_id w q w1 ->
  vectorstore env = Some search ->
  search q 8%nat = Ok chunks ->
  filtered_chunks chunks <> [] ->
  Py.contains "Error"
    (Py.join CONTEXT_SEPARATOR (map page_content (map fst (filtered_chunks chunks))))
  || Py.contains "No relevant documents"
       (Py.join CONTEXT_SEPARATOR (map page_content (map fst (filtered_chunks chunks))))
  = true ->
  (check_exact_match env q = None ->
   agent_decision_flow env input_query session_id w
   = (Ok (Response PERMISSION_QUESTION "Agent (Multi-turn)" []),
      World (<[session_id := {| last_agent_action := awaiting_web_permission;
                                last_query := q |}]> (session_store w))
        (calls w1 ++ [call_check_exact_match q; call_retrieve_from_docs q])))
  /\ (check_exact_match env q <> None ->
      agent_decision_flow env input_query session_id w
      = (Ok (Response NO_CONTEXT_MESSAGE "System Error" []),
         World (session_store w1)
           (calls w1 ++ [call_check_exact_match q; call_retrieve_from_docs q]))).
Proof.
  intros Hreach Hv Hs Hne Hc.
  assert (Hf : retrieval_failed (fst (retrieve_from_docs env q)) = true).
  { rewrite (retrieve_from_docs_kept _ _ _ _ Hv Hs Hne). exact Hc. }
  rewrite (reaches_main_flow_run _ _ _ _ _ _ Hreach). unfold try_except.
  split.
  - intros Ht. rewrite (hybrid_standard_failed _ _ _ _ Ht Hf).
    now rewrite (reaches_main_flow_store _ _ _ _ _ _ _ Hreach).
  - intros Ht. destruct (check_exact_match env q) as [t|] eqn:E; [|congruence].
    now rewrite (hybrid_trigger_failed _ _ _ _ _ E Hf).
Qed.

Lemma passage_text_taken_for_sentinel_witness :
  let env := Sample.env_of Sample.error_doc 0.7%float "yes" in
  let q := "Where are the codes listed?" in
  let w1 := record_call (call_check_for_ambiguity q) Sample.empty_world in
  (check_exact_match env q = None ->
   agent_decision_flow env q Sample.SESSION Sample.empty_world
   = (Ok (Response PERMISSION_QUESTION "Agent (Multi-turn)" []),
      World (<[Sample.SESSION := {| last_agent_action := awaiting_web_permission;
                                    last_query := q |}]> ∅)
        (calls w1 ++ [call_check_exact_match q; call_retrieve_from_docs q])))
  /\ (check_exact_match env q <> None ->
      agent_decision_flow env q Sample.SESSION Sample.empty_world
      = (Ok (Response NO_CONTEXT_MESSAGE "System Error" []),
         World (session_store w1)
           (calls w1 ++ [call_check_exact_match q; call_retrieve_from_docs q]))).
Proof.
  apply (passage_text_taken_for_sentinel
           (Sample.env_of Sample.error_doc 0.7%float "yes")
           "Where are the codes listed?" Sample.SESSION Sample.empty_world
           "Where are the codes listed?"
           (record_call (call_check_for_ambiguity "Where are the codes listed?")
              Sample.empty_world)
           (Sample.store_of Sample.error_doc 0.7%float)
           [(Sample.error_doc, 0.7%float)]).
  - apply reaches_fresh; reflexivity.
  - reflexivity.
  - reflexivity.
  - discriminate.
  - reflexivity.
Defined.

(** Both paths of C8 on a chunk that reads "Error codes are listed in
    appendix B.": at distance 0.7 (standard path) and 0.42 (trigger). *)
Example error_chunk_standard_path :
  agent_decision_flow (Sample.env_of Sample.error_doc 0.7%float "yes")
    "Where are the codes listed?" Sample.SESSION Sample.empty_world
  = (Ok (Response PERMISSION_QUESTION "Agent (Multi-turn)" []),
     World {[ Sample.SESSION := {| last_agent_action := awaiting_web_permission;
                                   last_query := "Where are the codes listed?" |} ]}
       [call_check_for_ambiguity "Where are the codes listed?";
        call_check_exact_match "Where are the codes listed?";
        call_retrieve_from_docs "Where are the codes listed?"]).
Proof. vm_compute. reflexivity. Qed.

Example error_chunk_high_confidence_path :
  agent_decision_flow (Sample.env_of Sample.error_doc 0.42%float "yes")
    "Where are the codes listed?" Sample.SESSION Sample.empty_world
  = (Ok (Response NO_CONTEXT_MESSAGE "System Error" []),
     World ∅
       [call_check_for_ambiguity "Where are the codes listed?";
        call_check_exact_match "Where are the codes listed?";
        call_retrieve_from_docs "Where are the codes listed?"]).
Proof. vm_compute. reflexivity. Qed.




(** C3, as stated, fails: the input " yes" is "yes" once stripped and
    lowercased, yet the turn declines, and no web search is made. *)
Lemma padded_yes_is_declined :
  Py.mem (Py.lower (Py.strip " yes")) AFFIRMATIVE = true
  /\ agent_decision_flow (Sample.env_of Sample.refund_doc 0.42%float "yes")
       " yes" Sample.SESSION (Sample.pending awaiting_web_permission "What is the refund policy?")
     = (Ok (Response DECLINE_MESSAGE "Agent Response" []), World ∅ []).
Proof. split; vm_compute; reflexivity. Qed.

(** C3, amended.  A session awaiting web permission.  The input is
    affirmative exactly when its lowercase form, not stripped, is one of
    "yes", "y", "sure", "ok".  Then [search_web] is called once, on the
    stored query, the session is cleared, and the web-synthesis chain is
    invoked on the stored query and the search results; when it returns, its
    answer is the response, under "Agent + Web Search".  On any other input
    the session is cleared, nothing is called, and the decline message is
    returned under "Agent Response". *)
Theorem web_permission_turn
    (env : components) (input_query session_id : string) (w : world) pending :
  session_store w !! session_id
    = Some {| last_agent_action := awaiting_web_permission; last_query := pending |} ->
  (In (Py.lower input_query) ["yes"; "y"; "sure"; "ok"] ->
   exists r rest,
     agent_decision_flow env input_query session_id w
     = (Ok r, World (delete session_id (session_store w))
                (calls w ++ call_search_web pending :: rest))
     /\ (forall q', ~ In (call_search_web q') rest)
     /\ (forall invoke final_answer,
           llm env = Some invoke ->
           invoke WEB_SYNTHESIS_PROMPT_TEMPLATE
             [("question", pending); ("search_results", search_web env pending)]
             = Ok final_answer ->
           r = Response final_answer "Agent + Web Search" []
           /\ rest = [call_invoke WEB_SYNTHESIS_PROMPT_TEMPLATE
                        [("question", pending);
                         ("search_results", search_web env pending)]]))
  /\ (~ In (Py.lower input_query) ["yes"; "y"; "sure"; "ok"] ->
      agent_decision_flow env input_query session_id w
      = (Ok (Response DECLINE_MESSAGE "Agent Response" []),
         World (delete session_id (session_store w)) (calls w))).
Proof.
  intros Hs. split; intros Hin.
  - apply (mem_In _ AFFIRMATIVE) in Hin.
    unfold_turn. rewrite Hs, Hin.
    destruct (llm env) as [invoke|]; simpl.
    + destruct (invoke _ _) as [a|e] eqn:Ha; tidy_calls;
        eexists _, [_]; (split; [reflexivity|]);
        (split; [intros q' [H|[]]; discriminate|]);
        intros invoke' final_answer [= <-] Ha'; rewrite Ha in Ha'.
      * injection Ha' as ->. split; reflexivity.
      * discriminate.
    + eexists _, []. split; [reflexivity|]. split; [intros q' []|]. discriminate.
  - assert (Hm : Py.mem (Py.lower input_query) AFFIRMATIVE = false).
    { destruct (Py.mem _ _) eqn:E; [|reflexivity].
      apply mem_In in E. contradiction. }
    unfold_turn. now rewrite Hs, Hm.
Qed.

Lemma web_permission_turn_witness :
  let env := Sample.env_of Sample.refund_doc 0.42%float "yes" in
  let w := Sample.pending awaiting_web_permission "What is the refund policy?" in
  (In (Py.lower "OK") ["yes"; "y"; "sure"; "ok"] ->
   exists r rest,
     agent_decision_flow env "OK" Sample.SESSION w
     = (Ok r, World (delete Sample.SESSION (session_store w))
                (calls w ++ call_search_web "What is the refund policy?" :: rest))
     /\ (forall q', ~ In (call_search_web q') rest)
     /\ (forall invoke final_answer,
           llm env = Some invoke ->
           invoke WEB_SYNTHESIS_PROMPT_TEMPLATE
             [("question", "What is the refund policy?");
              ("search_results", search_web env "What is the refund policy?")]
             = Ok final_answer ->
           r = Response final_answer "Agent + Web Search" []
           /\ rest = [call_invoke WEB_SYNTHESIS_PROMPT_TEMPLATE
                        [("question", "What is the refund policy?");
                         ("search_results",
                          search_web env "What is the refund policy?")]]))
  /\ (~ In (Py.lower "OK") ["yes"; "y"; "sure"; "ok"] ->
      agent_decision_flow env "OK" Sample.SESSION w
      = (Ok (Response DECLINE_MESSAGE "Agent Response" []),
         World (delete Sample.SESSION (session_store w)) (calls w))).
Proof.
  apply (web_permission_turn
           (Sample.env_of Sample.refund_doc 0.42%float "yes")
           "OK" Sample.SESSION
           (Sample.pending awaiting_web_permission "What is the refund policy?")
           "What is the refund policy?").
  reflexivity.
Defined.

(** Lowercasing is Python's: "O" followed by U+212A KELVIN SIGN lowers to
    "ok", and the web is searched. *)
Example permission_kelvin :
  agent_decision_flow (Sample.env_of Sample.refund_doc 0.42%float "yes")
    ("O" ++ Py.kelvin) Sample.SESSION
    (Sample.pending awaiting_web_permission "What is the refund policy?")
  = (Ok (Response "An answer." "Agent + Web Search" []),
     World ∅
       [call_search_web "What is the refund policy?";
        call_invoke WEB_SYNTHESIS_PROMPT_TEMPLATE
          [("question", "What is the refund policy?");
           ("search_results", "results for What is the refund policy?")]]).
Proof. vm_compute. reflexivity. Qed.

(** The two kinds of permission turn, run: "OK" searches the web for the
    stored query, "maybe" does not. *)
Example permission_granted :
  agent_decision_flow (Sample.env_of Sample.refund_doc 0.42%float "yes")
    "OK" Sample.SESSION (Sample.pending awaiting_web_permission "What is the refund policy?")
  = (Ok (Response "An answer." "Agent + Web Search" []),
     World ∅
       [call_search_web "What is the refund policy?";
        call_invoke WEB_SYNTHESIS_PROMPT_TEMPLATE
          [("question", "What is the refund policy?");
           ("search_results", "results for What is the refund policy?")]]).
Proof. vm_compute. reflexivity. Qed.

Example permission_maybe :
  agent_decision_flow (Sample.env_of Sample.refund_doc 0.42%float "yes")
    "maybe" Sample.SESSION (Sample.pending awaiting_web_permission "What is the refund policy?")
  = (Ok (Response DECLINE_MESSAGE "Agent Response" []), World ∅ []).
Proof. vm_compute. reflexivity. Qed.

(** ** Sessions after a turn *)

(** A turn that ends under a label other than "Agent (Clarification)" and
    "Agent (Multi-turn)" leaves no session behind, provided that, when the
    session was awaiting clarification, the rephrasing call returned. *)
Lemma terminal_turn_clears_session
    (env : components) (input_query session_id : string) (w : world) r w' :
  agent_decision_flow env input_query session_id w = (Ok r, w') ->
  source_label r <> "Agent (Clarification)" ->
  source_label r <> "Agent (Multi-turn)" ->
  (forall pending,
      session_store w !! session_id
        = Some {| last_agent_action := awaiting_clarification; last_query := pending |} ->
      exists invoke new_query,
        llm env = Some invoke
        /\ invoke REPHRASE_PROMPT
             [("original_question", pending); ("clarification_detail", input_query)]
           = Ok new_query) ->
  session_store w' !! session_id = None.
Proof.
  intros Hrun Hc Hm Hre.
  assert (Hmain : forall q w1,
             reaches_main_flow env input_query session_id w q w1 ->
             session_store w1 !! session_id = None ->
             session_store w' !! session_id = None).
  { intros q w1 Hreach Hnone.
    rewrite (reaches_main_flow_run _ _ _ _ _ _ Hreach) in Hrun. unfold try_except in Hrun.
    destruct (hybrid_logic_shape env q session_id w1) as (o & rest & E & _ & _ & Hst).
    rewrite E in Hrun. simpl in Hst.
    destruct Hst as [Hsame | [_ ->]].
    - destruct o; injection Hrun as _ <-; simpl; now rewrite Hsame.
    - injection Hrun as <- _. now elim Hm. }
  destruct (session_store w !! session_id) as [[[|] pending]|] eqn:Hs.
  - revert Hrun. unfold_turn. rewrite Hs.
    destruct (Py.mem _ _); simpl.
    + destruct (llm env) as [invoke|]; simpl;
        [destruct (invoke _ _)|]; intros [= _ <-]; apply lookup_delete_eq.
    + intros [= _ <-]. apply lookup_delete_eq.
  - destruct (Hre pending eq_refl) as (invoke & new_query & Hl & Hr).
    apply (Hmain _ _ (reaches_rephrased env _ _ _ _ _ _ Hs Hl Hr)).
    apply lookup_delete_eq.
  - destruct (clarification_asked (check_for_ambiguity env input_query)) as [question|] eqn:Hq.
    + revert Hrun. unfold_turn. rewrite Hs, Hq.
      intros [= <- _]. now elim Hc.
    + apply (Hmain _ _ (reaches_fresh env _ _ _ Hs Hq)). exact Hs.
Qed.

(** C2 fails on a turn whose rephrasing call raises.  First turn: the
    query is ambiguous and the session is filed as awaiting clarification.
    Second turn: the rephrasing call raises before line 406 is reached; the
    turn ends under "System Error" and the session is still stored. *)
Theorem rephraser_failure_keeps_session :
  let turn1 :=
    agent_decision_flow Sample.flaky_env Sample.AMBIGUOUS Sample.SESSION
      Sample.empty_world in
  let turn2 :=
    agent_decision_flow Sample.flaky_env "Acme Corp" Sample.SESSION (snd turn1) in
  fst turn1 = Ok (Response Sample.WHICH_COMPANY "Agent (Clarification)" [])
  /\ fst turn2
     = Ok (Response "An internal agent error occurred: Connection refused"
             "System Error" [])
  /\ session_store (snd turn2) !! Sample.SESSION
     = Some {| last_agent_action := awaiting_clarification;
               last_query := Sample.AMBIGUOUS |}.
Proof. repeat split; vm_compute; reflexivity. Qed.

(** The sibling branch: a web synthesis that raises on a permission turn
    also ends under "System Error", but line 387 has already removed the
    session. *)
Example web_synthesis_failure_clears_session :
  agent_decision_flow Sample.flaky_env "yes" Sample.SESSION
    (Sample.pending awaiting_web_permission "What is the refund policy?")
  = (Ok (Response "An internal agent error occurred: Connection refused"
           "System Error" []),
     World ∅
       [call_search_web "What is the refund policy?";
        call_invoke WEB_SYNTHESIS_PROMPT_TEMPLATE
          [("question", "What is the refund policy?");
           ("search_results", "Error: Web search tool not initialized.")]]).
Proof. vm_compute. reflexivity. Qed.

(** * Further properties of the flow *)

(** ** Every turn is one of the cases of [turn_result] *)

Lemma hybrid_logic_result (env : components) (q session_id : string) (w : world) :
  exists o store' cs,
    hybrid_logic env q session_id w = (o, World store' (calls w ++ cs))
    /\ hybrid_result env q session_id (session_store w) o store' cs.
Proof.
  destruct (check_exact_match env q) as [t|] eqn:Ht;
    destruct (retrieval_failed (fst (retrieve_from_docs env q))) eqn:Hf.
  - rewrite (hybrid_trigger_failed _ _ _ _ _ Ht Hf).
    eexists _, _, _. split; [reflexivity|]. eapply hybrid_degraded; eauto.
  - destruct (llm env) as [invoke|] eqn:Hm.
    + rewrite (hybrid_trigger_synthesis _ _ _ _ _ _ Ht Hf Hm).
      destruct (invoke _ _) as [a|e] eqn:Ha; eexists _, _, _;
        (split; [reflexivity|]).
      * eapply hybrid_high_confidence; eauto.
      * eapply hybrid_high_confidence_raised; eauto.
    + unfold_turn. rewrite Ht.
      destruct (retrieve_from_docs env q) as [ctx srcs] eqn:Hr; simpl in *.
      rewrite Hf, Hm. tidy_calls.
      eexists _, _, _. split; [reflexivity|].
      eapply hybrid_high_confidence_no_model; eauto. now rewrite Hr.
  - rewrite (hybrid_standard_failed _ _ _ _ Ht Hf).
    eexists _, _, _. split; [reflexivity|]. now apply hybrid_permission_ungraded.
  - rewrite (hybrid_standard_graded _ _ _ _ Ht Hf).
    destruct (check_relevance env q _) eqn:Hrel.
    + destruct (llm env) as [invoke|] eqn:Hm.
      * destruct (invoke _ _) as [a|e] eqn:Ha; tidy_calls; eexists _, _, _;
          (split; [reflexivity|]).
        -- eapply hybrid_internal_docs; eauto.
        -- eapply hybrid_internal_docs_raised; eauto.
      * unfold check_relevance in Hrel. rewrite Hm in Hrel. discriminate.
    + eexists _, _, _. split; [reflexivity|]. now apply hybrid_permission_graded.
Qed.

Lemma agent_decision_flow_result (env : components) (input_query session_id : string)
    (w : world) :
  exists r store' cs,
    agent_decision_flow env input_query session_id w
    = (Ok r, World store' (calls w ++ cs))
    /\ turn_result env input_query session_id (session_store w) r store' cs.
Proof.
  assert (Hmain : forall q w1 first,
             reaches_main_flow env input_query session_id w q w1 ->
             calls w1 = (calls w ++ [first])%list ->
             exists o store' cs,
               agent_decision_flow env input_query session_id w
               = (Ok (settled o), World store' (calls w ++ first :: cs))
               /\ hybrid_result env q session_id (session_store w1) o store' cs).
  { intros q w1 first Hreach Hc.
    rewrite (reaches_main_flow_run _ _ _ _ _ _ Hreach). unfold try_except.
    destruct (hybrid_logic_result env q session_id w1) as (o & store' & cs & -> & Hres).
    rewrite Hc, <- List.app_assoc. simpl.
    exists o, store', cs. split; [|exact Hres]. now destruct o. }
  destruct (session_store w !! session_id) as [[[|] pending]|] eqn:Hs.
  - destruct (Py.mem (Py.lower input_query) AFFIRMATIVE) eqn:Hin.
    + pose proof (proj1 (mem_In _ _) Hin) as Hin'.
      unfold_turn. rewrite Hs, Hin.
      destruct (llm env) as [invoke|] eqn:Hm; simpl.
      * destruct (invoke _ _) as [a|e] eqn:Ha; tidy_calls; eexists _, _, _;
          (split; [reflexivity|]).
        -- eapply turn_web_search; eauto.
        -- eapply turn_web_search_raised; eauto.
      * eexists _, _, _. split; [reflexivity|]. eapply turn_web_search_no_model; eauto.
    + unfold_turn. rewrite Hs, Hin. simpl.
      eexists _, _, []. rewrite List.app_nil_r. split; [reflexivity|].
      eapply turn_declined; [exact Hs|]. intros H. apply mem_In in H. congruence.
  - destruct (llm env) as [invoke|] eqn:Hm.
    + destruct (invoke REPHRASE_PROMPT (rephrase_inputs pending input_query))
        as [new_query|e] eqn:Hr.
      * destruct (Hmain _ _ _ (reaches_rephrased env _ _ _ _ _ _ Hs Hm Hr) eq_refl)
          as (o & store' & cs & -> & Hres).
        eexists _, _, _. split; [reflexivity|]. eapply turn_rephrased; eauto.
      * unfold_turn. rewrite Hs, Hm. unfold rephrase_inputs in Hr. rewrite Hr. simpl.
        eexists _, _, _. split; [reflexivity|]. eapply turn_rephrase_raised; eauto.
    + unfold_turn. rewrite Hs, Hm. simpl.
      exists (internal_error NOT_RUNNABLE), (session_store w), [].
      rewrite List.app_nil_r. split; [now destruct w|].
      eapply turn_rephrase_no_model; eauto.
  - destruct (clarification_asked (check_for_ambiguity env input_query))
      as [question|] eqn:Hq.
    + unfold_turn. rewrite Hs, Hq. simpl.
      eexists _, _, _. split; [reflexivity|]. now apply turn_clarification.
    + destruct (Hmain _ _ _ (reaches_fresh env _ _ _ Hs Hq) eq_refl)
        as (o & store' & cs & -> & Hres).
      eexists _, _, _. split; [reflexivity|]. now apply turn_fresh.
Qed.

(** ** Sessions *)

Lemma hybrid_result_other_session env q session_id store o store' cs other :
  hybrid_result env q session_id store o store' cs ->
  other <> session_id ->
  store' !! other = store !! other.
Proof.
  intros H Hne. destruct H; try reflexivity;
    unfold permission_store; now rewrite lookup_insert_ne.
Qed.

(** X1. A turn for one session id leaves the stored session of every other
    id as it was. *)
Theorem other_sessions_untouched
    (env : components) (input_query session_id other : string) (w : world) :
  other <> session_id ->
  session_store (snd (agent_decision_flow env input_query session_id w)) !! other
  = session_store w !! other.
Proof.
  intros Hne.
  destruct (agent_decision_flow_result env input_query session_id w)
    as (r & store' & cs & -> & H). simpl.
  destruct H;
    rewrite ?(hybrid_result_other_session _ _ _ _ _ _ _ _ ltac:(eassumption) Hne);
    rewrite ?lookup_delete_ne, ?lookup_insert_ne by congruence; reflexivity.
Qed.

Lemma other_sessions_untouched_witness :
  session_store
    (snd (agent_decision_flow (Sample.env_of Sample.refund_doc 0.85%float "yes")
            "What is the refund policy?" Sample.SESSION
            (Sample.pending awaiting_clarification Sample.AMBIGUOUS)))
    !! "10.0.0.8"
  = session_store (Sample.pending awaiting_clarification Sample.AMBIGUOUS) !! "10.0.0.8".
Proof.
  apply (other_sessions_untouched
           (Sample.env_of Sample.refund_doc 0.85%float "yes")
           "What is the refund policy?" Sample.SESSION "10.0.0.8"
           (Sample.pending awaiting_clarification Sample.AMBIGUOUS)).
  discriminate.
Defined.

(** X2. Every turn ends under one of seven labels, and only the two
    labels of answers drawn from the documents come with sources. *)
Theorem response_labels
    (env : components) (input_query session_id : string) (w : world) :
  exists r w',
    agent_decision_flow env input_query session_id w = (Ok r, w')
    /\ In (source_label r)
         ["Agent + Web Search"; "Agent Response"; "Agent (Clarification)";
          "Agent (High-Confidence RAG)"; "Agent + Internal Docs";
          "Agent (Multi-turn)"; "System Error"]
    /\ (sources r <> [] ->
        source_label r = "Agent (High-Confidence RAG)"
        \/ source_label r = "Agent + Internal Docs").
Proof.
  destruct (agent_decision_flow_result env input_query session_id w)
    as (r & store' & cs & -> & H).
  eexists _, _. split; [reflexivity|].
  destruct H as [| | | | | | ? ? ? ? ? ? ? ? ? Hh | | ? ? ? ? ? Hh];
    try destruct Hh; simpl; split; try tauto; try congruence.
Qed.

(** X3. After any turn the session is stored as awaiting web permission
    exactly when the turn ended under "Agent (Multi-turn)", and then the
    answer is the permission question; a turn that ends under
    "Agent (Clarification)" has stored the session as awaiting clarification
    of the query it received. *)
Theorem pending_sessions_match_labels
    (env : components) (input_query session_id : string) (w : world) :
  exists r w',
    agent_decision_flow env input_query session_id w = (Ok r, w')
    /\ ((exists q, session_store w' !! session_id
                   = Some {| last_agent_action := awaiting_web_permission;
                             last_query := q |})
        <-> source_label r = "Agent (Multi-turn)")
    /\ (source_label r = "Agent (Multi-turn)" -> answer_text r = PERMISSION_QUESTION)
    /\ (source_label r = "Agent (Clarification)" ->
        session_store w' !! session_id
        = Some {| last_agent_action := awaiting_clarification;
                  last_query := input_query |}).
Proof.
  assert (Hh : forall q st o st' cs,
             hybrid_result env q session_id st o st' cs ->
             st !! session_id = None ->
             ((exists q', st' !! session_id
                          = Some {| last_agent_action := awaiting_web_permission;
                                    last_query := q' |})
              <-> source_label (settled o) = "Agent (Multi-turn)")
             /\ (source_label (settled o) = "Agent (Multi-turn)" ->
                 answer_text (settled o) = PERMISSION_QUESTION)
             /\ (source_label (settled o) = "Agent (Clarification)" ->
                 st' !! session_id
                 = Some {| last_agent_action := awaiting_clarification;
                           last_query := input_query |})).
  { intros q st o st' cs H Hnone.
    destruct H; simpl; unfold permission_store;
      rewrite ?lookup_insert_eq, ?Hnone;
      (split; [split; [intros [q' E]; congruence || reflexivity
                      | intros E; congruence || eauto]
              | split; intros E; congruence || reflexivity]). }
  destruct (agent_decision_flow_result env input_query session_id w)
    as (r & store' & cs & -> & H).
  eexists _, _. split; [reflexivity|]. simpl.
  destruct H as [| | | | | | ? ? ? ? ? ? ? ? ? H' | | ? ? ? ? ? H'];
    try (apply (Hh _ _ _ _ _ H'); (assumption || apply lookup_delete_eq));
    simpl; rewrite ?lookup_delete_eq, ?lookup_insert_eq;
    (split; [split; [intros [q' E]; congruence | intros E; congruence]
            | split; intros E; congruence || reflexivity]).
Qed.

(** ** Calls *)

Lemma hybrid_result_calls env q session_id store o store' cs :
  hybrid_result env q session_id store o store' cs ->
  (length cs <= 4)%nat
  /\ (forall q', ~ In (call_search_web q') cs)
  /\ (forall q', In (call_retrieve_from_docs q') cs -> q' = q)
  /\ exists rest, cs = call_check_exact_match q :: call_retrieve_from_docs q :: rest.
Proof.
  intros H. destruct H; simpl; (split; [lia|]);
    (split; [intros q' F; intuition discriminate|]);
    (split; [intros q' F; intuition congruence | eauto]).
Qed.

(** X4. The web is searched only with permission: [search_web] is called
    in a turn only when the session was awaiting web permission and the
    lowercased input is one of the affirmative words, and then once, first,
    on the stored query, with no document retrieval in that turn. *)
Theorem web_search_only_with_permission
    (env : components) (input_query session_id : string) (w : world) :
  exists turn_calls,
    calls (snd (agent_decision_flow env input_query session_id w))
    = (calls w ++ turn_calls)%list
    /\ (forall q,
          In (call_search_web q) turn_calls ->
          session_store w !! session_id
            = Some {| last_agent_action := awaiting_web_permission; last_query := q |}
          /\ In (Py.lower input_query) ["yes"; "y"; "sure"; "ok"]
          /\ (exists rest, turn_calls = call_search_web q :: rest
                           /\ forall q', ~ In (call_search_web q') rest)
          /\ (forall q', ~ In (call_retrieve_from_docs q') turn_calls)
          /\ (forall q', ~ In (call_check_exact_match q') turn_calls)).
Proof.
  destruct (agent_decision_flow_result env input_query session_id w)
    as (r & store' & cs & -> & H).
  exists cs. split; [reflexivity|].
  destruct H as [| | | | | | ? ? ? ? ? ? ? ? ? Hh | | ? ? ? ? ? Hh];
    try (destruct (hybrid_result_calls _ _ _ _ _ _ _ Hh) as (_ & Hweb & _ & _);
         simpl;
         intros q [F|F]; [discriminate | now elim (Hweb q)]);
    simpl; intros q F;
    try (destruct F as [[= <-]|F]); try solve [intuition discriminate];
    (split; [assumption|]); (split; [assumption|]);
    (split; [eexists; split; [reflexivity|]; intros q' F'; simpl in F';
             intuition discriminate|]);
    split; intros q' F'; simpl in F'; intuition discriminate.
Qed.

(** ** The ambiguity detector *)

Lemma lower_strip_clear : Py.lower (Py.strip "clear") = "clear".
Proof. reflexivity. Qed.

(** The detector asks exactly when its model call returns a non-empty text
    that is not "clear" once stripped and lowercased. *)
Lemma clarification_asked_iff (env : components) (query question : string) :
  clarification_asked (check_for_ambiguity env query) = Some question
  <-> exists invoke,
      llm env = Some invoke
      /\ invoke CLARIFICATION_PROMPT [("question", query)] = Ok question
      /\ question <> ""
      /\ Py.lower (Py.strip question) <> "clear".
Proof.
  unfold check_for_ambiguity. split.
  - destruct (llm env) as [invoke|]; [|discriminate].
    destruct (invoke _ _) as [response|e] eqn:Hr; [|discriminate].
    destruct (Py.truthy response) eqn:T; simpl; [|discriminate].
    destruct (String.eqb (Py.lower (Py.strip response)) "clear") eqn:E; simpl;
      [discriminate|].
    rewrite T. destruct (String.eqb response "clear"); simpl; [discriminate|].
    intros [= <-]. exists invoke. repeat split; try assumption.
    + intros ->. discriminate.
    + now apply String.eqb_neq.
  - intros (invoke & -> & -> & Hne & Hc).
    assert (T : Py.truthy question = true) by (destruct question; [congruence | reflexivity]).
    apply String.eqb_neq in Hc. rewrite T, Hc. simpl. rewrite T.
    destruct (String.eqb question "clear") eqn:E; [|reflexivity].
    apply String.eqb_eq in E. subst. discriminate.
Qed.



(** X6. When the detector fails open on a session with nothing pending,
    the turn goes on with the confidence check on the query as received and
    does not end under "Agent (Clarification)". *)
Theorem ambiguity_detector_fails_open
    (env : components) (input_query session_id : string) (w : world) :
  session_store w !! session_id = None ->
  (llm env = None
   \/ exists invoke,
       llm env = Some invoke
       /\ ((exists e, invoke CLARIFICATION_PROMPT [("question", input_query)] = Raise e)
           \/ exists response,
               invoke CLARIFICATION_PROMPT [("question", input_query)] = Ok response
               /\ (response = "" \/ Py.lower (Py.strip response) = "clear"))) ->
  exists r store' rest,
    agent_decision_flow env input_query session_id w
    = (Ok r, World store'
               (calls w ++ call_check_for_ambiguity input_query
                  :: call_check_exact_match input_query
                  :: call_retrieve_from_docs input_query :: rest))
    /\ source_label r <> "Agent (Clarification)".
Proof.
  intros Hs Hopen.
  assert (Hq : clarification_asked (check_for_ambiguity env input_query) = None).
  { destruct (clarification_asked _) as [question|] eqn:E; [|reflexivity].
    apply clarification_asked_iff in E as (invoke & Hm & Hr & Hne & Hc).
    destruct Hopen as [Hn | (invoke' & Hm' & [[e He] | (resp & Hresp & [-> | Hcl])])];
      congruence. }
  destruct (agent_decision_flow_result env input_query session_id w)
    as (r & store' & cs & -> & H).
  destruct H as [| | | | | | | | o st' cs' _ _ Hh]; try congruence.
  destruct (hybrid_result_calls _ _ _ _ _ _ _ Hh) as (_ & _ & _ & rest & ->).
  exists (settled o), st', rest. split; [reflexivity|].
  destruct Hh; simpl; congruence.
Qed.

Lemma ambiguity_detector_fails_open_witness :
  exists r store' rest,
    agent_decision_flow Fixture.degraded_env "What is the refund policy?"
      Sample.SESSION Sample.empty_world
    = (Ok r, World store'
               (calls Sample.empty_world
                  ++ call_check_for_ambiguity "What is the refund policy?"
                  :: call_check_exact_match "What is the refund policy?"
                  :: call_retrieve_from_docs "What is the refund policy?" :: rest))
    /\ source_label r <> "Agent (Clarification)".
Proof.
  apply (ambiguity_detector_fails_open Fixture.degraded_env
           "What is the refund policy?" Sample.SESSION Sample.empty_world).
  - reflexivity.
  - right. exists Fixture.down_model. split; [reflexivity|].
    left. exists "Read timed out". reflexivity.
Defined.

(** ** Web search *)

(** X7. The result of [search_web] is not tested for failure: when web
    search is not configured, or the search raises, the web-synthesis chain
    is still invoked, with the error text as its search results, and its
    answer is returned under "Agent + Web Search". *)
Theorem failed_web_search_is_synthesized
    (env : components) (input_query session_id : string) (w : world)
    pending invoke final_answer :
  session_store w !! session_id
    = Some {| last_agent_action := awaiting_web_permission; last_query := pending |} ->
  In (Py.lower input_query) ["yes"; "y"; "sure"; "ok"] ->
  (serper_search env = None
   \/ exists run e, serper_search env = Some run /\ run pending = Raise e) ->
  llm env = Some invoke ->
  invoke WEB_SYNTHESIS_PROMPT_TEMPLATE
    [("question", pending); ("search_results", search_web env pending)]
    = Ok final_answer ->
  Py.startswith (search_web env pending) "Error" = true
  /\ agent_decision_flow env input_query session_id w
     = (Ok (Response final_answer "Agent + Web Search" []),
        World (delete session_id (session_store w))
          (calls w ++ [call_search_web pending;
                       call_invoke WEB_SYNTHESIS_PROMPT_TEMPLATE
                         [("question", pending);
                          ("search_results", search_web env pending)]])).
Proof.
  intros Hs Hin Hweb Hm Ha. split.
  - unfold search_web. destruct Hweb as [-> | (run & e & -> & ->)]; [reflexivity|].
    unfold Py.startswith.
    change ("Error performing web search: " ++ e)
      with ("Error" ++ (" performing web search: " ++ e)).
    apply prefix_app.
  - apply (mem_In _ AFFIRMATIVE) in Hin.
    unfold_turn. rewrite Hs, Hin, Hm. simpl. rewrite Ha. now tidy_calls.
Qed.

Lemma failed_web_search_is_synthesized_witness :
  Py.startswith (search_web Fixture.offline_env "What is the refund policy?") "Error"
  = true
  /\ agent_decision_flow Fixture.offline_env "Sure" Sample.SESSION
       (Sample.pending awaiting_web_permission "What is the refund policy?")
     = (Ok (Response "An answer." "Agent + Web Search" []),
        World (delete Sample.SESSION
                 (session_store
                    (Sample.pending awaiting_web_permission "What is the refund policy?")))
          (calls (Sample.pending awaiting_web_permission "What is the refund policy?")
           ++ [call_search_web "What is the refund policy?";
               call_invoke WEB_SYNTHESIS_PROMPT_TEMPLATE
                 [("question", "What is the refund policy?");
                  ("search_results",
                   search_web Fixture.offline_env "What is the refund policy?")]])).
Proof.
  apply (failed_web_search_is_synthesized Fixture.offline_env "Sure" Sample.SESSION
           (Sample.pending awaiting_web_permission "What is the refund policy?")
           "What is the refund policy?" (Sample.model "no") "An answer.").
  - reflexivity.
  - simpl. tauto.
  - right. eexists _, _. split; reflexivity.
  - reflexivity.
  - reflexivity.
Defined.

(** ** Turns composed *)




(** X9. Permission round trip.  A turn on a session with nothing pending
    that ends under "Agent (Multi-turn)", followed by a turn with an
    affirmative input: the second turn searches the web for the query of the
    first turn, not for its own input, and the session store is back to what
    it was before the two turns. *)
Theorem permission_round_trip
    (env : components) (query answer session_id : string) (w : world) r1 w1 :
  session_store w !! session_id = None ->
  agent_decision_flow env query session_id w = (Ok r1, w1) ->
  source_label r1 = "Agent (Multi-turn)" ->
  In (Py.lower answer) ["yes"; "y"; "sure"; "ok"] ->
  exists r2 rest,
    agent_decision_flow env answer session_id w1
    = (Ok r2, World (session_store w) (calls w1 ++ call_search_web query :: rest))
    /\ (forall q', ~ In (call_search_web q') rest).
Proof.
  intros Hs Hrun Hlabel Hin.
  destruct (agent_decision_flow_result env query session_id w)
    as (r & store1 & cs & E & H).
  rewrite Hrun in E. injection E as -> ->.
  assert (Hw1 : store1 = permission_store session_id query (session_store w)).
  { destruct H as [| | | | | | | | o st' cs' _ _ Hh]; try congruence;
      try (simpl in Hlabel; congruence).
    destruct Hh; simpl in Hlabel; try congruence; reflexivity. }
  subst store1. clear H Hrun.
  destruct (agent_decision_flow_result env answer session_id
              (World (permission_store session_id query (session_store w))
                 (calls w ++ cs)))
    as (r2 & store2 & cs2 & -> & H2).
  simpl in H2. unfold permission_store in H2.
  assert (Hback : delete session_id
                    (<[session_id := {| last_agent_action := awaiting_web_permission;
                                        last_query := query |}]> (session_store w))
                  = session_store w).
  { rewrite delete_insert_eq. now apply delete_id. }
  destruct H2 as [p i a E2 | p i e E2 | p E2 | p E2 Hno | p i e E2 | p E2
                  | p i n o s' c E2 | qn E2 | o s' c E2];
    rewrite lookup_insert_eq in E2; try discriminate;
    try (injection E2 as <-); try contradiction;
    rewrite Hback; simpl; eexists _, _; (split; [reflexivity|]);
    intros q' F; simpl in F; intuition discriminate.
Qed.

Lemma permission_round_trip_witness :
  exists r2 rest,
    agent_decision_flow (Sample.env_of Sample.refund_doc 0.85%float "yes")
      "yes" Sample.SESSION
      (World {[ Sample.SESSION := {| last_agent_action := awaiting_web_permission;
                                     last_query := "What is the refund policy?" |} ]}
         [call_check_for_ambiguity "What is the refund policy?";
          call_check_exact_match "What is the refund policy?";
          call_retrieve_from_docs "What is the refund policy?"])
    = (Ok r2, World (session_store Sample.empty_world)
                (calls
                   (World {[ Sample.SESSION :=
                               {| last_agent_action := awaiting_web_permission;
                                  last_query := "What is the refund policy?" |} ]}
                      [call_check_for_ambiguity "What is the refund policy?";
                       call_check_exact_match "What is the refund policy?";
                       call_retrieve_from_docs "What is the refund policy?"])
                 ++ call_search_web "What is the refund policy?" :: rest))
    /\ (forall q', ~ In (call_search_web q') rest).
Proof.
  apply (permission_round_trip
           (Sample.env_of Sample.refund_doc 0.85%float "yes")
           "What is the refund policy?" "yes" Sample.SESSION Sample.empty_world
           (Response PERMISSION_QUESTION "Agent (Multi-turn)" [])).
  - reflexivity.
  - vm_compute. reflexivity.
  - reflexivity.
  - simpl. tauto.
Defined.

(** ** Retrieval *)

Lemma string_app_assoc (a b c : string) : (a ++ b) ++ c = a ++ (b ++ c).
Proof.
  induction a as [|x a IH]; [reflexivity|].
  change (String x ((a ++ b) ++ c) = String x (a ++ (b ++ c))). now rewrite IH.
Qed.

Lemma prefix_app_l (sub a b : string) :
  String.prefix sub a = true -> String.prefix sub (a ++ b) = true.
Proof.
  intros H. apply prefix_split in H as [r ->].
  rewrite string_app_assoc. apply prefix_app.
Qed.

Lemma contains_app_l (sub a b : string) :
  Py.contains sub a = true -> Py.contains sub (a ++ b) = true.
Proof.
  induction a as [|c a IH]; simpl.
  - rewrite orb_false_r. intros H. destruct sub as [|c sub]; [|discriminate].
    destruct b; reflexivity.
  - intros H. apply orb_true_iff in H as [H|H].
    + apply (prefix_app_l _ (String c a) b) in H. simpl in H. now rewrite H.
    + rewrite (IH H). apply orb_true_r.
Qed.

Lemma contains_app_r (sub a b : string) :
  Py.contains sub b = true -> Py.contains sub (a ++ b) = true.
Proof.
  intros H. induction a as [|c a IH]; simpl; [exact H|].
  rewrite IH. apply orb_true_r.
Qed.

Lemma contains_refl (s : string) : Py.contains s s = true.
Proof. exact (contains_suffix s ""). Qed.

Lemma contains_join (sep x : string) (l : list string) :
  In x l -> Py.contains x (Py.join sep l) = true.
Proof.
  unfold Py.join. induction l as [|y l IH]; [contradiction|].
  intros [-> | Hin]; simpl.
  - destruct l; [apply contains_refl|]. apply contains_app_l, contains_refl.
  - destruct l as [|z l]; [contradiction|].
    apply contains_app_r, contains_app_r. now apply IH.
Qed.

(** X10. Every chunk of the [k=8] search whose score is at most 0.7 has
    its text in the context [retrieve_from_docs] returns. *)
Theorem kept_passages_are_in_context
    (env : components) (query : string) search chunks doc score :
  vectorstore env = Some search ->
  search query 8%nat = Ok chunks ->
  In (doc, score) chunks ->
  PrimFloat.leb score 0.7 = true ->
  Py.contains (page_content doc) (fst (retrieve_from_docs env query)) = true.
Proof.
  intros Hv Hs Hin Hle.
  assert (Hk : In (doc, score) (filtered_chunks chunks))
    by (apply filtered_chunks_iff; auto).
  rewrite (retrieve_from_docs_kept _ _ _ _ Hv Hs) by (intros E; now rewrite E in Hk).
  simpl. unfold context_text. apply contains_join.
  apply (in_map fst) in Hk. apply (in_map page_content) in Hk. exact Hk.
Qed.

Lemma kept_passages_are_in_context_witness :
  Py.contains (page_content Fixture.hr_doc)
    (fst (retrieve_from_docs Fixture.library_env "Who approves leave?")) = true.
Proof.
  apply (kept_passages_are_in_context Fixture.library_env "Who approves leave?"
           (fun _ k => Ok (firstn k Fixture.library)) Fixture.library
           Fixture.hr_doc 0.6%float).
  - reflexivity.
  - reflexivity.
  - simpl. tauto.
  - reflexivity.
Defined.

(** X11. The sources [retrieve_from_docs] returns are, without repetition,
    the sources of the chunks of the [k=8] search whose score is at most
    0.7 ("N/A" for a chunk without one); there are none when the store is
    missing or the search raises. *)
Theorem retrieved_sources
    (env : components) (query : string) :
  List.NoDup (snd (retrieve_from_docs env query))
  /\ (forall s,
        In s (snd (retrieve_from_docs env query))
        <-> exists search chunks doc score,
            vectorstore env = Some search
            /\ search query 8%nat = Ok chunks
            /\ In (doc, score) chunks
            /\ PrimFloat.leb score 0.7 = true
            /\ source_of doc = s).
Proof.
  unfold retrieve_from_docs.
  destruct (vectorstore env) as [search|]; cbn [snd].
  2:{ split; [constructor|]. intros s. split; [contradiction|].
      intros (? & ? & ? & ? & ? & _). discriminate. }
  destruct (search query 8%nat) as [chunks|e] eqn:Hs; cbn [snd].
  2:{ split; [constructor|]. intros s. split; [contradiction|].
      intros (? & ? & ? & ? & [= <-] & ? & _). congruence. }
  assert (Hmem : forall s,
             In s (Py.list_set (map source_of (map fst (filtered_chunks chunks))))
             <-> exists search0 chunks0 doc score,
                 Some search = Some search0
                 /\ search0 query 8%nat = Ok chunks0
                 /\ In (doc, score) chunks0
                 /\ PrimFloat.leb score 0.7 = true
                 /\ source_of doc = s).
  { intros s. unfold Py.list_set. rewrite nodup_In, in_map_iff. split.
    - intros (doc & <- & Hd). apply in_map_iff in Hd as ([d score] & <- & Hk).
      apply filtered_chunks_iff in Hk as [Hin Hle].
      exists search, chunks, d, score. auto.
    - intros (search0 & chunks0 & doc & score & [= <-] & Hs0 & Hin & Hle & <-).
      rewrite Hs in Hs0. injection Hs0 as <-.
      exists doc. split; [reflexivity|].
      apply (in_map fst (filtered_chunks chunks) (doc, score)).
      apply filtered_chunks_iff. auto. }
  destruct (filtered_chunks chunks) as [|c kept] eqn:Hk; cbn [snd].
  - split; [constructor|]. exact Hmem.
  - split; [apply List.NoDup_nodup | exact Hmem].
Qed.

(** X12. When the [k=3] and the [k=8] searches agree (each chunk of the
    first is among those of the second), a triggered [check_exact_match]
    means [retrieve_from_docs] keeps at least one chunk and returns as
    context the joined text of the kept chunks, in the order of the search,
    and not "No relevant documents found.". *)
Theorem trigger_means_chunks_are_kept
    (env : components) (query : string) search top3 top8 :
  vectorstore env = Some search ->
  search query 3%nat = Ok top3 ->
  search query 8%nat = Ok top8 ->
  incl top3 top8 ->
  check_exact_match env query <> None ->
  filtered_chunks top8 <> []
  /\ fst (retrieve_from_docs env query)
     = Py.join CONTEXT_SEPARATOR (map page_content (map fst (filtered_chunks top8))).
Proof.
  intros Hv H3 H8 Hincl Ht.
  assert (Hne : filtered_chunks top8 <> []).
  { unfold check_exact_match in Ht. rewrite Hv, H3 in Ht.
    destruct (first_trigger top3) as [t|] eqn:E; [|congruence].
    apply first_trigger_Some in E as (_ & doc & score & Hin & Hlt).
    assert (Hk : In (doc, score) (filtered_chunks top8)).
    { apply filtered_chunks_iff. split; [now apply Hincl | now apply ltb_leb]. }
    intros F. now rewrite F in Hk. }
  split; [exact Hne|].
  now rewrite (retrieve_from_docs_kept _ _ _ _ Hv H8 Hne).
Qed.

Lemma trigger_means_chunks_are_kept_witness :
  filtered_chunks Fixture.library <> []
  /\ fst (retrieve_from_docs Fixture.library_env "What is the refund policy?")
     = Py.join CONTEXT_SEPARATOR
         [page_content Sample.refund_doc; page_content Fixture.hr_doc].
Proof.
  apply (trigger_means_chunks_are_kept Fixture.library_env
           "What is the refund policy?"
           (fun _ k => Ok (firstn k Fixture.library))
           Fixture.library Fixture.library).
  - reflexivity.
  - reflexivity.
  - reflexivity.
  - apply incl_refl.
  - discriminate.
Defined.

(** * The server *)

(** ** Start-up *)

(** X13. What a successful [_initialize_llm] implies: the provider is one
    of the four names, spelled exactly; the client is the one built for that
    name; for "openai", "gemini" and "claude" the key is set in the
    configuration (and is not the placeholder, for "gemini") and has been
    copied into the environment before the client was built; for "ollama"
    the environment is untouched. *)
Theorem initialize_llm_success
    (cfg : config) (os : platform) (provider : string)
    (environ0 environ1 : gmap string string) (client : llm_client) :
  _initialize_llm cfg os provider environ0 = (Ok client, environ1) ->
  make_llm os provider environ1 = Ok client
  /\ ((provider = "ollama" /\ environ1 = environ0)
      \/ (provider = "openai" /\ OPENAI_API_KEY cfg <> ""
          /\ environ1 = <["OPENAI_API_KEY" := OPENAI_API_KEY cfg]> environ0)
      \/ (provider = "gemini" /\ GEMINI_API_KEY cfg <> ""
          /\ GEMINI_API_KEY cfg <> "Dummy to be updated"
          /\ environ1 = <["GOOGLE_API_KEY" := GEMINI_API_KEY cfg]> environ0)
      \/ (provider = "claude" /\ CLAUDE_API_KEY cfg <> ""
          /\ environ1 = <["ANTHROPIC_API_KEY" := CLAUDE_API_KEY cfg]> environ0)).
Proof.
  unfold _initialize_llm, putenv.
  destruct (Py.truthy provider); simpl; [|discriminate].
  destruct (String.eqb provider "ollama") eqn:E1.
  { apply String.eqb_eq in E1 as ->. intros [= H <-]. auto. }
  destruct (String.eqb provider "openai") eqn:E2.
  { apply String.eqb_eq in E2 as ->.
    destruct (OPENAI_API_KEY cfg) as [|c k] eqn:K; simpl; [discriminate|].
    destruct (setenv_raises os _ _); [discriminate|].
    intros [= H <-]. split; [exact H|]. right; left. repeat split. discriminate. }
  destruct (String.eqb provider "gemini") eqn:E3.
  { apply String.eqb_eq in E3 as ->.
    destruct (String.eqb (GEMINI_API_KEY cfg) "Dummy to be updated") eqn:D; simpl;
      [discriminate|].
    apply String.eqb_neq in D.
    destruct (GEMINI_API_KEY cfg) as [|c k] eqn:K; simpl; [discriminate|].
    destruct (setenv_raises os _ _); [discriminate|].
    intros [= H <-]. split; [exact H|]. right; right; left.
    repeat split; [discriminate | exact D]. }
  destruct (String.eqb provider "claude") eqn:E4; [|discriminate].
  apply String.eqb_eq in E4 as ->.
  destruct (CLAUDE_API_KEY cfg) as [|c k] eqn:K; simpl; [discriminate|].
  destruct (setenv_raises os _ _); [discriminate|].
  intros [= H <-]. split; [exact H|]. right; right; right. repeat split. discriminate.
Qed.

Lemma initialize_llm_success_witness :
  make_llm Site.healthy "openai" Site.openai_environ = Ok Site.client
  /\ (("openai" = "ollama" /\ Site.openai_environ = Site.bare_environ)
      \/ ("openai" = "openai" /\ OPENAI_API_KEY Site.openai_config <> ""
          /\ Site.openai_environ
             = <["OPENAI_API_KEY" := OPENAI_API_KEY Site.openai_config]> Site.bare_environ)
      \/ ("openai" = "gemini" /\ GEMINI_API_KEY Site.openai_config <> ""
          /\ GEMINI_API_KEY Site.openai_config <> "Dummy to be updated"
          /\ Site.openai_environ
             = <["GOOGLE_API_KEY" := GEMINI_API_KEY Site.openai_config]> Site.bare_environ)
      \/ ("openai" = "claude" /\ CLAUDE_API_KEY Site.openai_config <> ""
          /\ Site.openai_environ
             = <["ANTHROPIC_API_KEY" := CLAUDE_API_KEY Site.openai_config]>
                 Site.bare_environ)).
Proof.
  apply (initialize_llm_success Site.openai_config Site.healthy "openai"
           Site.bare_environ Site.openai_environ Site.client).
  reflexivity.
Defined.

(** X14. [_initialize_llm] refuses, without building a client and without
    touching the environment, when no provider is named, when the name is
    not one of the four, and when the key of the named provider is missing;
    the refusal does not depend on what building a client would do. *)
Theorem initialize_llm_refusal
    (cfg : config) (os : platform) (provider : string) (environ0 : gmap string string) :
  provider = ""
  \/ ~ In provider ["ollama"; "openai"; "gemini"; "claude"]
  \/ (provider = "openai" /\ OPENAI_API_KEY cfg = "")
  \/ (provider = "gemini"
      /\ (GEMINI_API_KEY cfg = "" \/ GEMINI_API_KEY cfg = "Dummy to be updated"))
  \/ (provider = "claude" /\ CLAUDE_API_KEY cfg = "") ->
  exists e, _initialize_llm cfg os provider environ0 = (Raise e, environ0).
Proof.
  unfold _initialize_llm.
  intros [-> | [Hn | [[-> K] | [[-> K] | [-> K]]]]]; simpl.
  - eauto.
  - destruct (Py.truthy provider); simpl; [|eauto].
    destruct (String.eqb provider "ollama") eqn:E1;
      [apply String.eqb_eq in E1; subst; elim Hn; simpl; tauto|].
    destruct (String.eqb provider "openai") eqn:E2;
      [apply String.eqb_eq in E2; subst; elim Hn; simpl; tauto|].
    destruct (String.eqb provider "gemini") eqn:E3;
      [apply String.eqb_eq in E3; subst; elim Hn; simpl; tauto|].
    destruct (String.eqb provider "claude") eqn:E4;
      [apply String.eqb_eq in E4; subst; elim Hn; simpl; tauto|].
    eauto.
  - rewrite K. simpl. eauto.
  - destruct K as [K | K]; rewrite K; simpl; eauto.
  - rewrite K. simpl. eauto.
Qed.

Lemma initialize_llm_refusal_witness :
  exists e,
    _initialize_llm Site.openai_config Site.healthy "OpenAI" Site.bare_environ
    = (Raise e, Site.bare_environ).
Proof.
  apply (initialize_llm_refusal Site.openai_config Site.healthy "OpenAI"
           Site.bare_environ).
  right; left. simpl. intros [H|[H|[H|[H|[]]]]]; discriminate.
Defined.

Lemma initialize_serper_keeps cfg os s :
  let s' := snd (initialize_serper cfg os s) in
  llm (parts s') = llm (parts s)
  /\ vectorstore (parts s') = vectorstore (parts s)
  /\ embedding_model s' = embedding_model s
  /\ state s' = state s
  /\ print_raises s' = print_raises s
  /\ rag_components_initialized s' = rag_components_initialized s
  /\ rag_agent_flow s' = rag_agent_flow s
  /\ (SERPER_API_KEY cfg = "" -> serper_search (parts s') = None).
Proof.
  unfold initialize_serper, putenv.
  destruct (SERPER_API_KEY cfg) as [|c k]; simpl.
  - repeat split; auto.
  - destruct (setenv_raises os _ _); simpl; [repeat split; discriminate|].
    destruct (make_serper os _); simpl; repeat split; discriminate.
Qed.

Lemma initialize_serper_true cfg os s :
  fst (initialize_serper cfg os s) = true
  <-> SERPER_API_KEY cfg = ""
      \/ (setenv_raises os "SERPER_API_KEY" (SERPER_API_KEY cfg) = None
          /\ exists run,
              make_serper os (<["SERPER_API_KEY" := SERPER_API_KEY cfg]> (environ s))
              = Ok run).
Proof.
  unfold initialize_serper, putenv.
  destruct (SERPER_API_KEY cfg) as [|c k]; simpl.
  - split; auto.
  - destruct (setenv_raises os _ _) as [e|]; simpl.
    + split; [discriminate|]. intros [F | [F _]]; discriminate.
    + destruct (make_serper os _) as [run|e]; simpl; split.
      * eauto.
      * reflexivity.
      * discriminate.
      * intros [F | [_ [run F]]]; discriminate.
Qed.

(** X15. [initialize_rag_components] returns [True] exactly when the model
    is built and answers the test call, the embedding model loads, the
    persistence directory exists, the vector store opens and can be counted,
    and, if a Serper key is configured, the key is put in the environment
    and the Serper client is built.  A missing Serper key does not make it
    fail: web search is left switched off.  With [True] the model, the
    embedding model and the vector store are in place and both
    [rag_components_initialized] and [rag_agent_flow] are set; with [False]
    the two flags are as they were.  The sessions are never touched.  On a
    host where every step succeeds, start-up without a Serper key returns
    [True] with web search off. *)
Theorem initialize_rag_components_gate
    (cfg : config) (os : platform) (s : server) :
  let ok := fst (initialize_rag_components cfg os s) in
  let s' := snd (initialize_rag_components cfg os s) in
  (ok = true
   <-> exists client environ1 hello model store n,
       _initialize_llm cfg os (ACTIVE_LLM_PROVIDER cfg) (environ s) = (Ok client, environ1)
       /\ client_hello client = Ok hello
       /\ make_embeddings os = Ok model
       /\ persist_dir_exists os = true
       /\ make_chroma os = Ok store
       /\ collection_count os = Ok n
       /\ (SERPER_API_KEY cfg = ""
           \/ (setenv_raises os "SERPER_API_KEY" (SERPER_API_KEY cfg) = None
               /\ exists run,
                   make_serper os (<["SERPER_API_KEY" := SERPER_API_KEY cfg]> environ1)
                   = Ok run)))
  /\ (ok = true ->
      llm (parts s') <> None
      /\ vectorstore (parts s') <> None
      /\ embedding_model s' <> None
      /\ rag_components_initialized s' = true
      /\ rag_agent_flow s' = true
      /\ (SERPER_API_KEY cfg = "" -> serper_search (parts s') = None))
  /\ (ok = false ->
      rag_components_initialized s' = rag_components_initialized s
      /\ rag_agent_flow s' = rag_agent_flow s)
  /\ state s' = state s
  /\ (let started :=
        initialize_rag_components Site.ollama_config Site.healthy
          (initial_server Site.stdout Site.bare_environ) in
      SERPER_API_KEY Site.ollama_config = ""
      /\ fst started = true
      /\ serper_search (parts (snd started)) = None
      /\ rag_components_initialized (snd started) = true).
Proof.
  cbv zeta. split; [|split; [|split; [|split; [|repeat split]]]].
  - unfold initialize_rag_components.
    destruct (_initialize_llm cfg os (ACTIVE_LLM_PROVIDER cfg) (environ s))
      as [[client|e] environ1]; simpl;
      [|split; [discriminate | intros (? & ? & ? & ? & ? & ? & [=] & _)]].
    destruct (client_hello client) as [hello|e] eqn:Hh; simpl;
      [|split; [discriminate
               | intros (? & ? & ? & ? & ? & ? & [= <- <-] & F & _); congruence]].
    destruct (make_embeddings os) as [model|e] eqn:He; simpl;
      [|split; [discriminate
               | intros (? & ? & ? & ? & ? & ? & _ & _ & [=] & _)]].
    destruct (persist_dir_exists os) eqn:Hd; simpl;
      [|split; [discriminate
               | intros (? & ? & ? & ? & ? & ? & _ & _ & _ & [=] & _)]].
    destruct (make_chroma os) as [store|e] eqn:Hc; simpl;
      [|split; [discriminate
               | intros (? & ? & ? & ? & ? & ? & _ & _ & _ & _ & [=] & _)]].
    destruct (collection_count os) as [n|e] eqn:Hn; simpl;
      [|split; [discriminate
               | intros (? & ? & ? & ? & ? & ? & _ & _ & _ & _ & _ & [=] & _)]].
    match goal with
    | |- context [initialize_serper cfg os ?s1] =>
        pose proof (initialize_serper_true cfg os s1) as Hs;
        destruct (initialize_serper cfg os s1) as [[|] s2]; simpl in *
    end.
    + split; [|reflexivity]. intros _.
      exists client, environ1, hello, model, store, n.
      repeat (split; [first [reflexivity | assumption]|]). now apply (proj1 Hs).
    + split; [discriminate|].
      intros (? & ? & ? & ? & ? & ? & [= <- <-] & _ & _ & _ & _ & _ & Hk).
      now apply (proj2 Hs) in Hk.
  - unfold initialize_rag_components.
    destruct (_initialize_llm cfg os (ACTIVE_LLM_PROVIDER cfg) (environ s))
      as [[client|e] environ1]; simpl; [|discriminate].
    destruct (client_hello client); simpl; [|discriminate].
    destruct (make_embeddings os); simpl; [|discriminate].
    destruct (persist_dir_exists os); simpl; [|discriminate].
    destruct (make_chroma os); simpl; [|discriminate].
    destruct (collection_count os); simpl; [|discriminate].
    match goal with
    | |- context [initialize_serper cfg os ?s1] =>
        pose proof (initialize_serper_keeps cfg os s1) as Hk;
        destruct (initialize_serper cfg os s1) as [[|] s2]; simpl in *;
        [|discriminate]
    end.
    destruct Hk as (Hl & Hv & He & _ & _ & _ & _ & Hk).
    intros _. rewrite Hl, Hv, He. repeat split; try discriminate. exact Hk.
  - unfold initialize_rag_components.
    destruct (_initialize_llm cfg os (ACTIVE_LLM_PROVIDER cfg) (environ s))
      as [[client|e] environ1]; simpl; [|auto].
    destruct (client_hello client); simpl; [|auto].
    destruct (make_embeddings os); simpl; [|auto].
    destruct (persist_dir_exists os); simpl; [|auto].
    destruct (make_chroma os); simpl; [|auto].
    destruct (collection_count os); simpl; [|auto].
    match goal with
    | |- context [initialize_serper cfg os ?s1] =>
        pose proof (initialize_serper_keeps cfg os s1) as Hk;
        destruct (initialize_serper cfg os s1) as [[|] s2]; simpl in *;
        [discriminate|]
    end.
    destruct Hk as (_ & _ & _ & _ & _ & Hi & Hf & _). auto.
  - unfold initialize_rag_components.
    destruct (_initialize_llm cfg os (ACTIVE_LLM_PROVIDER cfg) (environ s))
      as [[client|e] environ1]; simpl; [|auto].
    destruct (client_hello client); simpl; [|auto].
    destruct (make_embeddings os); simpl; [|auto].
    destruct (persist_dir_exists os); simpl; [|auto].
    destruct (make_chroma os); simpl; [|auto].
    destruct (collection_count os); simpl; [|auto].
    match goal with
    | |- context [initialize_serper cfg os ?s1] =>
        pose proof (initialize_serper_keeps cfg os s1) as Hk;
        destruct (initialize_serper cfg os s1) as [[|] s2]; simpl in *
    end; now destruct Hk as (_ & _ & _ & Hs & _).
Qed.

(** ** Queries *)

Lemma query_failed_500 e q s :
  snd (fst (query_failed e q s)) = 500%nat
  /\ snd (query_failed e q s) = s
  /\ (forall text q' source srcs,
        fst (fst (query_failed e q s)) <> answer_reply text q' source srcs).
Proof.
  unfold query_failed. destruct (print_raises s (error_line e)); simpl;
    repeat split; discriminate.
Qed.

(** The five ways through [handle_query]. *)
Lemma handle_query_cases data remote_addr s :
  (query_of data = None
   /\ handle_query data remote_addr s
      = (error_reply "Missing query field in request body", 400%nat, s))
  \/ (exists q e,
         query_of data = Some q
         /\ print_raises s (received_line q remote_addr) = Some e
         /\ handle_query data remote_addr s = query_failed e q s)
  \/ (exists q,
         query_of data = Some q
         /\ print_raises s (received_line q remote_addr) = None
         /\ (rag_components_initialized s = false \/ rag_agent_flow s = false)
         /\ handle_query data remote_addr s
            = (answer_reply "Backend not fully initialized. Check server logs."
                 q "System Error" [], 500%nat, s))
  \/ (exists q r w,
         query_of data = Some q
         /\ print_raises s (received_line q remote_addr) = None
         /\ rag_components_initialized s = true /\ rag_agent_flow s = true
         /\ agent_decision_flow (parts s) q remote_addr (state s) = (Ok r, w)
         /\ ((print_raises s (final_line q (answer_text r) (source_label r)) = None
              /\ handle_query data remote_addr s
                 = (answer_reply (Py.strip (answer_text r)) q (source_label r)
                      (sources r), 200%nat, set_state w s))
             \/ (exists e,
                    print_raises s (final_line q (answer_text r) (source_label r))
                    = Some e
                    /\ handle_query data remote_addr s
                       = query_failed e q (set_state w s)))).
Proof.
  unfold handle_query.
  destruct (query_of data) as [q|]; [|left; auto].
  destruct (print_raises s (received_line q remote_addr)) as [e|] eqn:Hp;
    [right; left; eauto|].
  destruct (rag_components_initialized s) eqn:Hi; simpl;
    [|right; right; left; exists q; auto].
  destruct (rag_agent_flow s) eqn:Hf; simpl;
    [|right; right; left; exists q; auto].
  right; right; right.
  destruct (agent_decision_flow_result (parts s) q remote_addr (state s))
    as (r & store' & cs & Hrun & _).
  rewrite Hrun. exists q, r, (World store' (calls (state s) ++ cs)).
  repeat (split; [first [reflexivity | assumption]|]).
  destruct (print_raises s (final_line q (answer_text r) (source_label r))) as [e|];
    [right; eauto | left; auto].
Qed.


Lemma initialize_rag_components_flags cfg os s :
  rag_components_initialized s = false ->
  rag_agent_flow s = false ->
  rag_components_initialized (snd (initialize_rag_components cfg os s))
  = fst (initialize_rag_components cfg os s)
  /\ rag_agent_flow (snd (initialize_rag_components cfg os s))
     = fst (initialize_rag_components cfg os s)
  /\ print_raises (snd (initialize_rag_components cfg os s)) = print_raises s.
Proof.
  intros Hi Hf. unfold initialize_rag_components.
  destruct (_initialize_llm cfg os (ACTIVE_LLM_PROVIDER cfg) (environ s))
    as [[client|e] environ1]; simpl; [|auto].
  destruct (client_hello client); simpl; [|auto].
  destruct (make_embeddings os); simpl; [|auto].
  destruct (persist_dir_exists os); simpl; [|auto].
  destruct (make_chroma os); simpl; [|auto].
  destruct (collection_count os); simpl; [|auto].
  match goal with
  | |- context [initialize_serper cfg os ?s1] =>
      pose proof (initialize_serper_keeps cfg os s1) as Hk;
      destruct (initialize_serper cfg os s1) as [[|] s2]; simpl in *
  end; destruct Hk as (_ & _ & _ & _ & Hp & Hi' & Hf' & _); auto.
  rewrite Hi', Hf'. auto.
Qed.

(** X17. Start-up gates the flow.  After [initialize_rag_components] has
    run on the freshly loaded module: if it returned [False], [/health]
    reports "degraded" (with status 200) and no request to [/api/query] is
    answered with status 200 or changes anything; if it returned [True],
    [/health] reports "healthy", and a request with a query is answered
    with status 200 when the output takes every line. *)
Theorem startup_gates_queries
    (cfg : config) (os : platform) (stdout : string -> option string)
    (environ0 : gmap string string) :
  let ok := fst (initialize_rag_components cfg os (initial_server stdout environ0)) in
  let s := snd (initialize_rag_components cfg os (initial_server stdout environ0)) in
  (ok = false ->
   fst (fst (health_check s)) = "degraded"
   /\ snd (health_check s) = 200%nat
   /\ forall data remote_addr,
       snd (fst (handle_query data remote_addr s)) <> 200%nat
       /\ snd (handle_query data remote_addr s) = s)
  /\ (ok = true ->
      health_check s = ("healthy", "Query Responder RAG API is running.", 200%nat)
      /\ forall data remote_addr q,
          query_of data = Some q ->
          (forall text, stdout text = None) ->
          snd (fst (handle_query data remote_addr s)) = 200%nat).
Proof.
  intros ok s.
  destruct (initialize_rag_components_flags cfg os (initial_server stdout environ0)
              eq_refl eq_refl) as (Hi & Hf & Hp).
  fold s in Hi, Hf, Hp. fold ok in Hi, Hf. simpl in Hp.
  split; intros Hok; rewrite Hok in Hi, Hf.
  - unfold health_check. rewrite Hi. split; [reflexivity|]. split; [reflexivity|].
    intros data remote_addr.
    destruct (handle_query_cases data remote_addr s)
      as [(Hq & E)
         | [(q & e & Hq & Hp1 & E)
           | [(q & Hq & Hp1 & Hflag & E)
             | (q & r & w & Hq & Hp1 & Hi' & _)]]]; try congruence;
      rewrite E; simpl; try (split; [discriminate | reflexivity]).
    destruct (query_failed_500 e q s) as (-> & -> & _). split; [discriminate | reflexivity].
  - unfold health_check. rewrite Hi. split; [reflexivity|].
    intros data remote_addr q Hq Hout.
    destruct (handle_query_cases data remote_addr s)
      as [(Hq' & E)
         | [(q' & e & _ & Hp1 & E)
           | [(q' & _ & _ & [H|H] & E)
             | (q' & r & w & _ & _ & _ & _ & _
                & [(_ & E) | (e & Hp2 & E)])]]]; try congruence;
      try (rewrite Hp, Hout in *; discriminate).
    now rewrite E.
Qed.

Lemma startup_gates_queries_witness :
  let s :=
    snd (initialize_rag_components Site.ollama_config Site.not_ingested
           (initial_server Site.utf8_stdout Site.bare_environ)) in
  fst (fst (health_check s)) = "degraded"
  /\ snd (health_check s) = 200%nat
  /\ forall data remote_addr,
      snd (fst (handle_query data remote_addr s)) <> 200%nat
      /\ snd (handle_query data remote_addr s) = s.
Proof.
  apply (startup_gates_queries Site.ollama_config Site.not_ingested
           Site.utf8_stdout Site.bare_environ).
  reflexivity.
Defined.

(** ** What [strip] leaves *)

Lemma append_cons (c : ascii) (a b : string) : String c a ++ b = String c (a ++ b).
Proof. reflexivity. Qed.

Lemma lstrip_unfold (s : string) :
  Py.lstrip s = match Py.skip_space s with
                | Some r => Py.lstrip r
                | None => s
                end.
Proof.
  destruct s as [|c1 r1]; [reflexivity|].
  unfold Py.skip_space.
  change (Py.lstrip (String c1 r1))
    with (if Py.isspace c1 then Py.lstrip r1
          else match r1 with
               | EmptyString => String c1 r1
               | String c2 r2 =>
                   if Py.isspace2 c1 c2 then Py.lstrip r2
                   else match r2 with
                        | EmptyString => String c1 r1
                        | String c3 r3 =>
                            if Py.isspace3 c1 c2 c3 then Py.lstrip r3 else String c1 r1
                        end
               end).
  destruct (Py.isspace c1); [reflexivity|].
  destruct r1 as [|c2 r2]; [reflexivity|].
  destruct (Py.isspace2 c1 c2); [reflexivity|].
  destruct r2 as [|c3 r3]; [reflexivity|].
  destruct (Py.isspace3 c1 c2 c3); reflexivity.
Qed.

Lemma skip_space_length (s r : string) :
  Py.skip_space s = Some r -> (String.length r < String.length s)%nat.
Proof.
  unfold Py.skip_space.
  destruct s as [|c1 r1]; [discriminate|].
  destruct (Py.isspace c1); [intros [= <-]; simpl; lia|].
  destruct r1 as [|c2 r2]; [discriminate|].
  destruct (Py.isspace2 c1 c2); [intros [= <-]; simpl; lia|].
  destruct r2 as [|c3 r3]; [discriminate|].
  destruct (Py.isspace3 c1 c2 c3); [intros [= <-]; simpl; lia | discriminate].
Qed.

Lemma skip_space_app (u r x : string) :
  Py.skip_space u = Some r -> Py.skip_space (u ++ x) = Some (r ++ x).
Proof.
  unfold Py.skip_space.
  destruct u as [|c1 r1]; [discriminate|]. rewrite append_cons.
  destruct (Py.isspace c1); [now intros [= <-]|].
  destruct r1 as [|c2 r2]; [discriminate|]. rewrite append_cons.
  destruct (Py.isspace2 c1 c2); [now intros [= <-]|].
  destruct r2 as [|c3 r3]; [discriminate|]. rewrite append_cons.
  destruct (Py.isspace3 c1 c2 c3); [now intros [= <-] | discriminate].
Qed.

Lemma lstrip_clean (s : string) : Py.skip_space (Py.lstrip s) = None.
Proof.
  remember (String.length s) as n eqn:Hn.
  revert s Hn. induction n as [n IH] using lt_wf_ind. intros s ->.
  rewrite lstrip_unfold. destruct (Py.skip_space s) as [r|] eqn:E; [|exact E].
  apply (IH (String.length r)); [now apply skip_space_length | reflexivity].
Qed.

Lemma lstrip_id (s : string) : Py.skip_space s = None -> Py.lstrip s = s.
Proof. intros E. rewrite lstrip_unfold. now rewrite E. Qed.

Lemma blank_app (a b : string) :
  Py.blank a = true -> Py.lstrip (a ++ b) = Py.lstrip b.
Proof.
  remember (String.length a) as n eqn:Hn.
  revert a Hn. induction n as [n IH] using lt_wf_ind. intros a -> B.
  destruct a as [|c a']; [reflexivity|].
  unfold Py.blank in B. rewrite lstrip_unfold in B. rewrite (lstrip_unfold (_ ++ b)).
  destruct (Py.skip_space (String c a')) as [r|] eqn:E; [|discriminate].
  rewrite (skip_space_app _ _ b E).
  apply (IH (String.length r)); [now apply skip_space_length | reflexivity | exact B].
Qed.

Lemma rstrip_cons (c : ascii) (r : string) :
  Py.rstrip (String c r)
  = if Py.blank (String c r) then EmptyString else String c (Py.rstrip r).
Proof. reflexivity. Qed.

Lemma rstrip_split (s : string) :
  exists t, s = Py.rstrip s ++ t /\ Py.blank t = true.
Proof.
  induction s as [|c r (t & Ht & Bt)]; [exists EmptyString; auto|].
  rewrite rstrip_cons. destruct (Py.blank (String c r)) eqn:B.
  - exists (String c r). auto.
  - exists t. rewrite append_cons, <- Ht. auto.
Qed.

Lemma rstrip_nil (s : string) : Py.rstrip s = EmptyString -> Py.blank s = true.
Proof.
  destruct s as [|c r]; [reflexivity|]. rewrite rstrip_cons.
  destruct (Py.blank (String c r)); [reflexivity | discriminate].
Qed.

Lemma rstrip_clean (s : string) : Py.skip_space s = None -> Py.skip_space (Py.rstrip s) = None.
Proof.
  intros E. destruct (rstrip_split s) as (t & Ht & _).
  destruct (Py.skip_space (Py.rstrip s)) as [r|] eqn:F; [|reflexivity].
  apply (skip_space_app _ _ t) in F. rewrite <- Ht in F. congruence.
Qed.

Lemma rstrip_rstrip (s : string) : Py.rstrip (Py.rstrip s) = Py.rstrip s.
Proof.
  induction s as [|c r IH]; [reflexivity|].
  rewrite rstrip_cons. destruct (Py.blank (String c r)) eqn:B; [reflexivity|].
  rewrite rstrip_cons, IH.
  destruct (Py.blank (String c (Py.rstrip r))) eqn:B'; [|reflexivity].
  destruct (rstrip_split r) as (t & Ht & Bt).
  assert (F : Py.blank (String c r) = true).
  { unfold Py.blank. rewrite Ht at 1. rewrite <- append_cons, (blank_app _ _ B').
    exact Bt. }
  congruence.
Qed.

Lemma starts_with_space_clean (s : string) :
  Py.skip_space s = None -> starts_with_space s = false.
Proof.
  destruct s as [|c r]; [reflexivity|]. unfold Py.skip_space. simpl.
  now destruct (Py.isspace c).
Qed.

Lemma rstrip_no_trailing (s : string) : ends_with_space (Py.rstrip s) = false.
Proof.
  induction s as [|c r IH]; [reflexivity|].
  rewrite rstrip_cons. destruct (Py.blank (String c r)) eqn:B; [reflexivity|].
  destruct (Py.rstrip r) as [|d r'] eqn:R; [|exact IH].
  simpl. destruct (Py.isspace c) eqn:E; [|reflexivity].
  apply rstrip_nil in R. unfold Py.blank in B, R.
  rewrite lstrip_unfold in B. unfold Py.skip_space in B. rewrite E in B.
  now rewrite B in R.
Qed.

Lemma strip_stripped (s : string) :
  Py.strip (Py.strip s) = Py.strip s
  /\ starts_with_space (Py.strip s) = false
  /\ ends_with_space (Py.strip s) = false.
Proof.
  unfold Py.strip.
  assert (H1 : Py.skip_space (Py.rstrip (Py.lstrip s)) = None)
    by apply rstrip_clean, lstrip_clean.
  rewrite (lstrip_id _ H1), rstrip_rstrip.
  split; [reflexivity|]. split; [now apply starts_with_space_clean|].
  apply rstrip_no_trailing.
Qed.

(** Whitespace outside ASCII is removed too: here U+00A0 before and U+2003
    after. *)
Example strip_unicode_padding :
  Py.strip (String (ascii_of_nat 194) (String (ascii_of_nat 160) " yes ")
            ++ String (ascii_of_nat 226) (String (ascii_of_nat 128)
                 (String (ascii_of_nat 131) Py.newline)))
  = "yes".
Proof. reflexivity. Qed.

(** X18. The answer text in a reply of [handle_query] with status 200
    neither begins nor ends with whitespace, whatever the model produced:
    stripping it again changes nothing. *)
Theorem answers_are_stripped
    (data : option (gmap string string)) (remote_addr : string) (s s' : server)
    text q source srcs :
  handle_query data remote_addr s = (answer_reply text q source srcs, 200%nat, s') ->
  Py.strip text = text
  /\ starts_with_space text = false
  /\ ends_with_space text = false.
Proof.
  intros H.
  destruct (handle_query_cases data remote_addr s)
    as [(_ & E)
       | [(q' & e & _ & _ & E)
         | [(q' & _ & _ & _ & E)
           | (q' & r & w & _ & _ & _ & _ & _
              & [(_ & E) | (e & _ & E)])]]]; rewrite E in H; try discriminate.
  - destruct (query_failed_500 e q' s) as (Hs & _). rewrite H in Hs. discriminate.
  - injection H as <- _ _ _ _. apply strip_stripped.
  - destruct (query_failed_500 e q' (set_state w s)) as (Hs & _).
    rewrite H in Hs. discriminate.
Qed.

Lemma answers_are_stripped_witness :
  Py.strip "An answer." = "An answer."
  /\ starts_with_space "An answer." = false
  /\ ends_with_space "An answer." = false.
Proof.
  apply (answers_are_stripped (Site.body "What is the refund policy?") "10.0.0.7"
           Site.serving
           (snd (handle_query (Site.body "What is the refund policy?") "10.0.0.7"
                   Site.serving))
           "An answer." "What is the refund policy?"
           "Agent (High-Confidence RAG)" ["policy.pdf"]).
  vm_compute. reflexivity.
Defined.

(** ** Sessions are keyed by the remote address *)

(** X19. Two requests from one remote address share a session: when the
    first is answered under "Agent (Clarification)", the query of the next
    request from that address, whatever it is, is handed to the rephraser as
    the clarification of the first one, provided the line that announces it
    can be printed. *)
Theorem shared_address_shares_session
    (s s1 : server) (remote_addr : string)
    (data1 data2 : option (gmap string string)) (q1 q2 text : string)
    (srcs : list string) invoke :
  handle_query data1 remote_addr s
    = (answer_reply text q1 "Agent (Clarification)" srcs, 200%nat, s1) ->
  query_of data2 = Some q2 ->
  print_raises s1 (received_line q2 remote_addr) = None ->
  llm (parts s) = Some invoke ->
  exists rest,
    calls (state (snd (handle_query data2 remote_addr s1)))
    = (calls (state s1)
       ++ call_invoke REPHRASE_PROMPT
            [("original_question", q1); ("clarification_detail", q2)] :: rest)%list.
Proof.
  intros H1 Hq2 Hp2 Hm.
  destruct (handle_query_cases data1 remote_addr s)
    as [(_ & E)
       | [(q & e & _ & _ & E)
         | [(q & _ & _ & _ & E)
           | (q & r & w & Hq & Hp & Hi & Hf & Hrun
              & [(_ & E) | (e & _ & E)])]]]; rewrite E in H1; try discriminate.
  { destruct (query_failed_500 e q s) as (Hs & _). rewrite H1 in Hs. discriminate. }
  2:{ destruct (query_failed_500 e q (set_state w s)) as (Hs & _).
      rewrite H1 in Hs. discriminate. }
  injection H1 as _ <- Hlabel _ <-.
  assert (Hstored : session_store w !! remote_addr
                    = Some {| last_agent_action := awaiting_clarification;
                              last_query := q |}).
  { destruct (agent_decision_flow_result (parts s) q remote_addr (state s))
      as (r' & store' & cs & E' & Ht).
    rewrite Hrun in E'. injection E' as -> ->. simpl.
    destruct Ht as [| | | | | | ? ? ? ? ? ? ? ? ? Hh | | ? ? ? ? ? Hh];
      try (simpl in Hlabel; congruence);
      try (destruct Hh; simpl in Hlabel; congruence).
    apply lookup_insert_eq. }
  simpl in Hp2. unfold handle_query. rewrite Hq2. simpl. rewrite Hp2, Hi, Hf. simpl.
  destruct (agent_decision_flow_result (parts s) q2 remote_addr w)
    as (r2 & store2 & cs2 & -> & Ht2).
  assert (Hcalls : exists rest,
             cs2 = call_invoke REPHRASE_PROMPT
                     [("original_question", q); ("clarification_detail", q2)] :: rest).
  { destruct Ht2 as [| | | | ? ? ? E2 | ? E2 Hn | ? ? ? ? ? ? E2 | |];
      try congruence; rewrite Hstored in E2; injection E2 as <-; eauto. }
  destruct Hcalls as [rest ->]. exists rest.
  destruct (print_raises s (final_line q2 (answer_text r2) (source_label r2)));
    [|reflexivity].
  unfold query_failed. now destruct (print_raises _ (error_line _)).
Qed.

Lemma shared_address_shares_session_witness :
  exists rest,
    calls (state (snd (handle_query (Site.body "What is the refund policy?")
                         "10.0.0.7"
                         (snd (handle_query (Site.body Sample.AMBIGUOUS) "10.0.0.7"
                                 Site.serving_utf8)))))
    = (calls (state (snd (handle_query (Site.body Sample.AMBIGUOUS) "10.0.0.7"
                            Site.serving_utf8)))
       ++ call_invoke REPHRASE_PROMPT
            [("original_question", Sample.AMBIGUOUS);
             ("clarification_detail", "What is the refund policy?")] :: rest)%list.
Proof.
  apply (shared_address_shares_session Site.serving_utf8
           (snd (handle_query (Site.body Sample.AMBIGUOUS) "10.0.0.7"
                   Site.serving_utf8))
           "10.0.0.7" (Site.body Sample.AMBIGUOUS)
           (Site.body "What is the refund policy?")
           Sample.AMBIGUOUS "What is the refund policy?"
           Sample.WHICH_COMPANY [] (client_chain Site.wordy_client)).
  - vm_compute. reflexivity.
  - reflexivity.
  - vm_compute. reflexivity.
  - reflexivity.
Defined.

(** ** Chains *)

Lemma hybrid_result_invokes env q session_id store o store' cs p inputs :
  hybrid_result env q session_id store o store' cs ->
  In (call_invoke p inputs) cs ->
  p = RAG_PROMPT_TEMPLATE
  /\ inputs = [("context", fst (retrieve_from_docs env q)); ("question", q)]
  /\ retrieval_failed (fst (retrieve_from_docs env q)) = false.
Proof.
  intros H Hin. destruct H; simpl in Hin;
    repeat (destruct Hin as [Hin|Hin]; try discriminate; try contradiction);
    injection Hin as <- <-; auto.
Qed.

(** X20. The chains the orchestrator itself invokes in a turn (those the
    detector and the grader invoke inside [check_for_ambiguity] and
    [check_relevance] are part of those tools).  The rephraser is invoked
    only for a session awaiting clarification, on its stored query and the
    input; the web synthesis only for a session awaiting web permission, on
    its stored query and the search results; the RAG synthesis only on a
    context that [retrieve_from_docs] returned and that passed the sentinel
    test, for the question that context was retrieved for, which is the
    input of the turn when nothing was pending and the rephraser's output
    when the session was awaiting clarification. *)
Theorem chains_of_a_turn
    (env : components) (input_query session_id : string) (w : world) :
  exists turn_calls,
    calls (snd (agent_decision_flow env input_query session_id w))
    = (calls w ++ turn_calls)%list
    /\ forall p inputs,
        In (call_invoke p inputs) turn_calls ->
        (p = REPHRASE_PROMPT
         /\ exists pending,
             session_store w !! session_id
               = Some {| last_agent_action := awaiting_clarification;
                         last_query := pending |}
             /\ inputs = [("original_question", pending);
                          ("clarification_detail", input_query)])
        \/ (p = WEB_SYNTHESIS_PROMPT_TEMPLATE
            /\ exists pending,
                session_store w !! session_id
                  = Some {| last_agent_action := awaiting_web_permission;
                            last_query := pending |}
                /\ inputs = [("question", pending);
                             ("search_results", search_web env pending)])
        \/ (p = RAG_PROMPT_TEMPLATE
            /\ exists q,
                inputs = [("context", fst (retrieve_from_docs env q)); ("question", q)]
                /\ retrieval_failed (fst (retrieve_from_docs env q)) = false
                /\ ((session_store w !! session_id = None /\ q = input_query)
                    \/ exists pending invoke,
                        session_store w !! session_id
                          = Some {| last_agent_action := awaiting_clarification;
                                    last_query := pending |}
                        /\ llm env = Some invoke
                        /\ invoke REPHRASE_PROMPT
                             [("original_question", pending);
                              ("clarification_detail", input_query)] = Ok q)).
Proof.
  destruct (agent_decision_flow_result env input_query session_id w)
    as (r & store' & cs & -> & H).
  exists cs. split; [reflexivity|]. intros p inputs Hin.
  destruct H as [| | | | | | pending invoke new_query o st' cs' Hs Hm Hr Hh
                | | o st' cs' Hs Hq Hh]; simpl in Hin;
    try contradiction;
    repeat (destruct Hin as [Hin|Hin]; try discriminate; try contradiction);
    try (injection Hin as <- <-);
    try (destruct (hybrid_result_invokes _ _ _ _ _ _ _ _ _ Hh Hin) as (-> & -> & Hf);
         right; right; split; [reflexivity|]; eexists; split; [reflexivity|];
         split; [exact Hf|]; eauto 8);
    try (left; split; [reflexivity|]; eexists; split; [eassumption | reflexivity]);
    try (right; left; split; [reflexivity|]; eexists; split;
         [eassumption | reflexivity]).
Qed.

(** ** Feedback *)

Lemma existsb_is_string (key : string) (items : list json) :
  existsb (is_string key) items = true <-> In (JString key) items.
Proof.
  rewrite existsb_exists. split.
  - intros (v & Hin & Hv). destruct v; try discriminate.
    apply String.eqb_eq in Hv. now subst.
  - intros Hin. exists (JString key). split; [exact Hin|]. simpl.
    apply String.eqb_refl.
Qed.

(** The ways through [handle_feedback]: [get_json] raises; the body is
    falsy; a name is missing; the body is not an object and an operation on
    it raises; the body is an object with the three keys. *)
Lemma handle_feedback_cases describe request_json now file :
  (exists e,
      request_json = Raise e
      /\ handle_feedback describe request_json now file
         = (feedback_error ("Internal server error: " ++ e), 500%nat, file))
  \/ (exists data,
         request_json = Ok data
         /\ json_truthy data = false
         /\ handle_feedback describe request_json now file
            = (feedback_error "Missing fields in feedback data", 400%nat, file))
  \/ (exists data key,
         request_json = Ok data
         /\ json_truthy data = true
         /\ In key ["query"; "response"; "liked"]
         /\ json_in describe key data = Ok false
         /\ handle_feedback describe request_json now file
            = (feedback_error "Missing fields in feedback data", 400%nat, file))
  \/ (exists data e,
         request_json = Ok data
         /\ json_truthy data = true
         /\ (forall fields, data <> JObject fields)
         /\ (forall key, In key ["query"; "response"; "liked"] ->
                         json_in describe key data <> Ok false)
         /\ handle_feedback describe request_json now file
            = (feedback_error ("Internal server error: " ++ e), 500%nat, file))
  \/ (exists fields query response liked,
         request_json = Ok (JObject fields)
         /\ json_field "query" fields = Some query
         /\ json_field "response" fields = Some response
         /\ json_field "liked" fields = Some liked
         /\ ((exists history,
                 history_of file = Some history
                 /\ handle_feedback describe request_json now file
                    = (feedback_message "Feedback received successfully", 200%nat,
                       Parsed (JArray (history
                                       ++ [feedback_data now query response liked]))))
             \/ (history_of file = None
                 /\ exists e,
                     handle_feedback describe request_json now file
                     = (feedback_error ("Internal server error: " ++ e), 500%nat,
                        file)))).
Proof.
  unfold handle_feedback.
  destruct request_json as [data|e]; [|left; eauto].
  destruct (json_truthy data) eqn:T; simpl; [|right; left; eauto].
  destruct data as [|b|n|x|text|items|fields].
  - discriminate.
  - right; right; right; left. exists (JBool b), (describe (not_iterable "bool")).
    repeat split; try discriminate; try assumption.
  - right; right; right; left. exists (JInt n), (describe (not_iterable "int")).
    repeat split; try discriminate; try assumption.
  - right; right; right; left. exists (JFloat x), (describe (not_iterable "float")).
    repeat split; try discriminate; try assumption.
  - cbn [json_in json_item type_name].
    destruct (Py.contains "query" text) eqn:E1;
      [|right; right; left; exists (JString text), "query"; simpl;
        rewrite E1; auto 10].
    destruct (Py.contains "response" text) eqn:E2;
      [|right; right; left; exists (JString text), "response"; simpl;
        rewrite E2; auto 10].
    destruct (Py.contains "liked" text) eqn:E3;
      [|right; right; left; exists (JString text), "liked"; simpl;
        rewrite E3; auto 10].
    right; right; right; left. exists (JString text), (describe (bad_index "str")).
    repeat split; try discriminate; try assumption.
    intros key [<-|[<-|[<-|[]]]]; simpl; rewrite ?E1, ?E2, ?E3; discriminate.
  - cbn [json_in json_item type_name].
    destruct (existsb (is_string "query") items) eqn:E1;
      [|right; right; left; exists (JArray items), "query"; simpl;
        rewrite E1; auto 10].
    destruct (existsb (is_string "response") items) eqn:E2;
      [|right; right; left; exists (JArray items), "response"; simpl;
        rewrite E2; auto 10].
    destruct (existsb (is_string "liked") items) eqn:E3;
      [|right; right; left; exists (JArray items), "liked"; simpl;
        rewrite E3; auto 10].
    right; right; right; left. exists (JArray items), (describe (bad_index "list")).
    repeat split; try discriminate; try assumption.
    intros key [<-|[<-|[<-|[]]]]; simpl; rewrite ?E1, ?E2, ?E3; discriminate.
  - cbn [json_in json_item type_name].
    destruct (json_field "query" fields) as [query|] eqn:E1;
      [|right; right; left; exists (JObject fields), "query"; simpl;
        rewrite E1; auto 10].
    destruct (json_field "response" fields) as [response|] eqn:E2;
      [|right; right; left; exists (JObject fields), "response"; simpl;
        rewrite E2; auto 10].
    destruct (json_field "liked" fields) as [liked|] eqn:E3;
      [|right; right; left; exists (JObject fields), "liked"; simpl;
        rewrite E3; auto 10].
    right; right; right; right. exists fields, query, response, liked.
    repeat (split; [reflexivity|]).
    destruct file as [|e|[| | | | |history|]]; simpl; eauto 8.
Qed.

(** X21. [handle_feedback] answers 200 exactly when the body is a JSON
    object with the keys 'query', 'response' and 'liked' and the history
    file is missing or holds a JSON array; the file then holds the former
    entries, in order, followed by one new entry with the time, the user id
    "dummy_user_id" and the three values of the body.  With any other
    status, 400 or 500, the file is left as it was.  An object is answered
    with 400 exactly when one of the three keys is missing, and so is every
    falsy body ([null], [false], [0], an empty string, array or object).  A
    body that is not an object is never accepted: an array or a string that
    holds the three names, a number other than zero and [true] are answered
    with 500, as is a body [get_json] raises on.  (The handler's [print] and
    the write of the file are taken to succeed.) *)
Theorem handle_feedback_appends
    (describe : python_error -> string) (request_json : outcome json)
    (now : string) (file : feedback_file) :
  let result := handle_feedback describe request_json now file in
  let status := snd (fst result) in
  (status = 200%nat
   <-> exists fields query response liked history,
       request_json = Ok (JObject fields)
       /\ json_field "query" fields = Some query
       /\ json_field "response" fields = Some response
       /\ json_field "liked" fields = Some liked
       /\ history_of file = Some history
       /\ snd result
          = Parsed (JArray (history
                            ++ [JObject [("timestamp", JString now);
                                         ("user_id", JString "dummy_user_id");
                                         ("query", query); ("response", response);
                                         ("liked", liked)]])))
  /\ (status <> 200%nat -> snd result = file)
  /\ (status = 200%nat \/ status = 400%nat \/ status = 500%nat)
  /\ (forall fields,
        request_json = Ok (JObject fields) ->
        (status = 400%nat
         <-> json_field "query" fields = None \/ json_field "response" fields = None
             \/ json_field "liked" fields = None))
  /\ (forall data,
        request_json = Ok data -> json_truthy data = false -> status = 400%nat)
  /\ (forall items,
        request_json = Ok (JArray items) ->
        In (JString "query") items -> In (JString "response") items ->
        In (JString "liked") items ->
        status = 500%nat)
  /\ (forall text,
        request_json = Ok (JString text) ->
        Py.contains "query" text = true -> Py.contains "response" text = true ->
        Py.contains "liked" text = true ->
        status = 500%nat)
  /\ (forall data,
        request_json = Ok data ->
        json_truthy data = true ->
        (exists n, data = JInt n) \/ (exists x, data = JFloat x) \/ data = JBool true ->
        status = 500%nat)
  /\ (forall e,
        request_json = Raise e ->
        fst result = (feedback_error ("Internal server error: " ++ e), 500%nat)).
Proof.
  cbv zeta.
  destruct (handle_feedback_cases describe request_json now file)
    as [(e & Hr & E)
       | [(data & Hr & T & E)
         | [(data & key & Hr & T & Hkey & Hin & E)
           | [(data & e & Hr & T & Hno & Hall & E)
             | (fields & query & response & liked & Hr & H1 & H2 & H3
                & [(history & Hh & E) | (Hh & e & E)])]]]]; rewrite E; simpl.
  - (* get_json raises *)
    split; [split; [discriminate|]|].
    { intros (? & ? & ? & ? & ? & F & _). congruence. }
    repeat split; auto; try (intros; congruence).
  - (* falsy body *)
    split; [split; [discriminate|]|].
    { intros (fs & ? & ? & ? & ? & F & F1 & _). rewrite Hr in F.
      injection F as ->. destruct fs; discriminate. }
    split; [reflexivity|]. split; [auto|].
    split.
    { intros fs F. rewrite Hr in F. injection F as ->.
      split; [|reflexivity]. intros _. destruct fs; [auto | discriminate]. }
    repeat split; try reflexivity; try (intros; congruence).
    + intros items F Hq _ _. rewrite Hr in F. injection F as ->.
      destruct items; [contradiction | discriminate].
    + intros text F Hq _ _. rewrite Hr in F. injection F as ->.
      destruct text; [vm_compute in Hq|]; discriminate.
  - (* a name is missing *)
    split; [split; [discriminate|]|].
    { intros (fs & ? & ? & ? & ? & F & F1 & F2 & F3 & _). rewrite Hr in F.
      injection F as ->. simpl in Hin.
      destruct Hkey as [<-|[<-|[<-|[]]]];
        rewrite ?F1, ?F2, ?F3 in Hin; discriminate. }
    split; [reflexivity|]. split; [auto|].
    split.
    { intros fs F. rewrite Hr in F. injection F as ->.
      split; [|reflexivity]. intros _. simpl in Hin.
      destruct Hkey as [<-|[<-|[<-|[]]]];
        [left | right; left | right; right];
        match goal with
        | |- json_field ?k fs = None => destruct (json_field k fs); [discriminate | reflexivity]
        end. }
    repeat split; try reflexivity; try (intros; congruence).
    + intros items F Hq Hre Hl. rewrite Hr in F. injection F as ->. simpl in Hin.
      apply existsb_is_string in Hq, Hre, Hl.
      destruct Hkey as [<-|[<-|[<-|[]]]]; congruence.
    + intros text F Hq Hre Hl. rewrite Hr in F. injection F as ->. simpl in Hin.
      destruct Hkey as [<-|[<-|[<-|[]]]]; congruence.
    + intros d F T' [[n ->]|[[x ->]| ->]]; rewrite Hr in F; injection F as ->;
        discriminate.
  - (* not an object, and an operation raises *)
    split; [split; [discriminate|]|].
    { intros (fs & ? & ? & ? & ? & F & _). rewrite Hr in F. injection F as ->.
      now elim (Hno fs). }
    split; [reflexivity|]. split; [auto|].
    split.
    { intros fs F. rewrite Hr in F. injection F as ->. now elim (Hno fs). }
    repeat split; try reflexivity; try (intros; congruence).
  - (* accepted *)
    split.
    { split; [|reflexivity]. intros _.
      exists fields, query, response, liked, history. auto 10. }
    split; [intros F; now elim F|]. split; [auto|].
    split.
    { intros fs F. rewrite Hr in F. injection F as <-.
      split; [discriminate|]. intros [F|[F|F]]; congruence. }
    repeat split; try (intros; congruence).
    + intros d F T'. rewrite Hr in F. injection F as <-.
      destruct fields; simpl in *; discriminate.
    + intros d F _ [[n ->]|[[x ->]| ->]]; congruence.
  - (* the history file cannot be used *)
    split; [split; [discriminate|]|].
    { intros (? & ? & ? & ? & ? & _ & _ & _ & _ & F & _). congruence. }
    split; [reflexivity|]. split; [auto|].
    split.
    { intros fs F. rewrite Hr in F. injection F as <-.
      split; [discriminate|]. intros [F|[F|F]]; congruence. }
    repeat split; try reflexivity; try (intros; congruence).
    intros d F T'. rewrite Hr in F. injection F as <-.
    destruct fields; simpl in *; discriminate.
Qed.

(** One request either appends one entry or leaves the file as it was. *)
Lemma handle_feedback_step describe request_json now file history :
  history_of file = Some history ->
  (snd (fst (handle_feedback describe request_json now file)) = 200%nat
   /\ exists query response liked,
       history_of (snd (handle_feedback describe request_json now file))
       = Some (history ++ [feedback_data now query response liked])%list)
  \/ (snd (fst (handle_feedback describe request_json now file)) <> 200%nat
      /\ snd (handle_feedback describe request_json now file) = file).
Proof.
  intros Hh.
  destruct (handle_feedback_cases describe request_json now file)
    as [(e & Hr & E)
       | [(data & Hr & T & E)
         | [(data & key & Hr & T & Hkey & Hin & E)
           | [(data & e & Hr & T & Hno & Hall & E)
             | (fields & query & response & liked & Hr & H1 & H2 & H3
                & [(history' & Hh' & E) | (Hh' & e & E)])]]]]; rewrite E; simpl;
    try (right; split; [discriminate | reflexivity]).
  left. split; [reflexivity|]. exists query, response, liked.
  congruence.
Qed.

(** X22. The feedback log only grows.  Starting from a missing file or a
    file that holds a JSON array, after any series of feedback requests,
    whatever their bodies, the file holds the former entries, in order,
    followed by one entry for each request answered with status 200, each
    with the user id "dummy_user_id".  (Writes are taken to succeed.) *)
Theorem feedback_log_only_grows
    (describe : python_error -> string)
    (requests : list (outcome json * string))
    (file : feedback_file) (history : list json) :
  history_of file = Some history ->
  exists added,
    history_of (snd (handle_feedbacks describe requests file))
    = Some (history ++ added)%list
    /\ length added
       = length (List.filter (Nat.eqb 200)
                   (fst (handle_feedbacks describe requests file)))
    /\ length (fst (handle_feedbacks describe requests file)) = length requests
    /\ Forall (fun entry =>
                 exists now query response liked,
                   entry = feedback_data now query response liked) added.
Proof.
  revert file history.
  induction requests as [|[request_json now] rest IH]; intros file history Hh.
  - exists []. simpl. rewrite List.app_nil_r. auto.
  - pose proof (handle_feedback_step describe request_json now file history Hh)
      as Hstep.
    cbn [handle_feedbacks].
    destruct (handle_feedback describe request_json now file)
      as [[reply status] file1].
    cbn [fst snd] in Hstep.
    destruct Hstep as [[-> (query & response & liked & Hh1)] | [Hs ->]].
    + destruct (IH file1 _ Hh1) as (added & Ha & Hl & Hn & Hf).
      destruct (handle_feedbacks describe rest file1) as [statuses file2].
      cbn [fst snd] in *.
      exists (feedback_data now query response liked :: added).
      rewrite Ha, <- List.app_assoc.
      split; [reflexivity|].
      cbn [List.filter length]. rewrite Nat.eqb_refl. cbn [length].
      split; [now rewrite Hl|]. split; [now rewrite Hn|].
      constructor; [eauto | exact Hf].
    + destruct (IH file history Hh) as (added & Ha & Hl & Hn & Hf).
      destruct (handle_feedbacks describe rest file) as [statuses file2].
      cbn [fst snd] in *.
      exists added. split; [exact Ha|].
      cbn [List.filter length].
      destruct (Nat.eqb_spec 200 status) as [F|_]; [congruence|].
      split; [exact Hl|]. split; [now rewrite Hn | exact Hf].
Qed.

Lemma feedback_log_only_grows_witness :
  exists added,
    history_of (snd (handle_feedbacks Site.describe
                       [(Site.feedback_body, "2025-01-01T10:00:00");
                        (Ok JNull, "2025-01-01T10:00:05");
                        (Site.odd_body, "2025-01-01T10:00:07");
                        (Site.feedback_body, "2025-01-01T10:00:09")] NoFile))
    = Some ([] ++ added)%list
    /\ length added
       = length (List.filter (Nat.eqb 200)
                   (fst (handle_feedbacks Site.describe
                           [(Site.feedback_body, "2025-01-01T10:00:00");
                            (Ok JNull, "2025-01-01T10:00:05");
                            (Site.odd_body, "2025-01-01T10:00:07");
                            (Site.feedback_body, "2025-01-01T10:00:09")] NoFile)))
    /\ length (fst (handle_feedbacks Site.describe
                      [(Site.feedback_body, "2025-01-01T10:00:00");
                       (Ok JNull, "2025-01-01T10:00:05");
                       (Site.odd_body, "2025-01-01T10:00:07");
                       (Site.feedback_body, "2025-01-01T10:00:09")] NoFile))
       = 4%nat
    /\ Forall (fun entry =>
                 exists now query response liked,
                   entry = feedback_data now query response liked) added.
Proof.
  apply (feedback_log_only_grows Site.describe
           [(Site.feedback_body, "2025-01-01T10:00:00");
            (Ok JNull, "2025-01-01T10:00:05");
            (Site.odd_body, "2025-01-01T10:00:07");
            (Site.feedback_body, "2025-01-01T10:00:09")] NoFile []).
  reflexivity.
Defined.

(** The four requests above are answered with 200, 400, 500 and 200. *)
Example feedback_statuses :
  fst (handle_feedbacks Site.describe
         [(Site.feedback_body, "2025-01-01T10:00:00");
          (Ok JNull, "2025-01-01T10:00:05");
          (Site.odd_body, "2025-01-01T10:00:07");
          (Site.feedback_body, "2025-01-01T10:00:09")] NoFile)
  = [200; 400; 500; 200]%nat.
Proof. reflexivity. Qed.
